(** * opsdroid-skill-aws: office-hours instance selection, state watcher
      and EC2 skills

    A shallow embedding of [src/__init__.py].

    - Strings are Rocq [string]s (sequences of 8-bit characters);
      [str.lower] is modelled on the ASCII letters, which is all that a
      comparison with the literal ['false'] can observe.
    - A boto tag list is a [list tag]; the dictionary built by
      [clean_tags] is a [gmap string string].
    - The boto client is an external, stateful service: a record of
      operations over an abstract client state, each returning either a
      [ClientError] text or a reply.
    - A skill is a computation in a small state-and-error monad whose
      state carries the client state and the trace of observable events
      (provider calls, chat messages, sleeps).
    - The polling loop of the watcher is a [while] loop and is modelled
      with fuel; running out of fuel is a distinct outcome. *)

From Stdlib Require Import ZArith Ascii String DecimalString.
From stdpp Require Import base option list gmap strings.

Local Open Scope string_scope.
Local Open Scope list_scope.

(** ** Data model *)

(** One entry of a boto tag list: [{"Key": ..., "Value": ...}]. *)
Record tag := Tag { Key : string; Value : string }.

(** The fields of an instance dictionary that the skills read.  [Tags],
    [InstanceLifecycle] and [PublicIpAddress] may be absent from the
    dictionary. [LaunchTime] is in seconds. *)
Record instance := Instance {
  InstanceId : string;
  Tags : option (list tag);
  InstanceLifecycle : option string;
  StateName : string;
  PublicIpAddress : option string;
  LaunchTime : Z
}.

Record reservation := Reservation { Instances : list instance }.

(** ** Helper functions *)

(** [str.lower], on ASCII. *)
Definition lower_ascii (c : ascii) : ascii :=
  let n := nat_of_ascii c in
  if Nat.leb 65 n && Nat.leb n 90 then ascii_of_nat (n + 32) else c.

Fixpoint lower (s : string) : string :=
  match s with
  | EmptyString => EmptyString
  | String c s' => String (lower_ascii c) (lower s')
  end.

(** [clean_tags]: the loop assigns [dict_of_tags[tag["Key"]] = tag["Value"]]
    for each tag in order. *)
Definition clean_tags (array_of_tags : list tag) : gmap string string :=
  foldl (fun dict_of_tags tag => <[Key tag := Value tag]> dict_of_tags)
        ∅ array_of_tags.

(** [clean_tags(instance["Tags"]) if "Tags" in instance else {}] *)
Definition tags_of (i : instance) : gmap string string :=
  match Tags i with
  | Some array_of_tags => clean_tags array_of_tags
  | None => ∅
  end.

(** [key in dict] *)
Definition key_in (k : string) (d : gmap string string) : bool :=
  match d !! k with Some _ => true | None => false end.

(** The body of the inner loop of [get_office_hours_instances]: the three
    nested [if]s and the [append]. *)
Definition office_hours_step (only_stopped : bool)
    (instances : list string) (i : instance) : list string :=
  let tags := tags_of i in
  if negb (key_in "aws:autoscaling:groupName" tags)
     && match InstanceLifecycle i with
        | None => true
        | Some lifecycle => negb (String.eqb lifecycle "spot")
        end
  then
    if match tags !! "OfficeHours" with
       | None => true
       | Some v => negb (String.eqb (lower v) "false")
       end
    then
      if negb only_stopped || key_in "StoppedByOfficeHours" tags
      then instances ++ [InstanceId i]
      else instances
    else instances
  else instances.

(** The two nested [for] loops of [get_office_hours_instances] over
    [response["Reservations"]], starting from [instances = []]. *)
Definition office_hours_instances (Reservations : list reservation)
    (only_stopped : bool) : list string :=
  foldl (fun instances r =>
           foldl (office_hours_step only_stopped) instances (Instances r))
        [] Reservations.

(** The character code of the lower-cased character. *)
Definition lower_code (n : nat) : nat :=
  if Nat.leb 65 n && Nat.leb n 90 then n + 32 else n.

(** ** The selector as the specification words it *)

(** Two characters are equal up to the case of ASCII letters. *)
Definition ascii_eq_ignore_case (a b : ascii) : bool :=
  let m := nat_of_ascii a in
  let n := nat_of_ascii b in
  Nat.eqb m n
  || (Nat.leb 65 m && Nat.leb m 90 && Nat.eqb n (m + 32))
  || (Nat.leb 65 n && Nat.leb n 90 && Nat.eqb m (n + 32)).

Fixpoint eq_ignore_case (s t : string) : bool :=
  match s, t with
  | EmptyString, EmptyString => true
  | String a s', String b t' => ascii_eq_ignore_case a b && eq_ignore_case s' t'
  | _, _ => false
  end.

(** Data model of the specification: membership in an autoscaling group is
    the presence of a marker tag key; the lifecycle class is spot. *)
Definition in_autoscaling_group (i : instance) : bool :=
  bool_decide (is_Some (tags_of i !! "aws:autoscaling:groupName")).

Definition is_spot (i : instance) : bool :=
  bool_decide (InstanceLifecycle i = Some "spot").

(** The tag [OfficeHours] is present with a value case-insensitively equal
    to ["false"]. *)
Definition opted_out (i : instance) : bool :=
  match tags_of i !! "OfficeHours" with
  | Some v => eq_ignore_case v "false"
  | None => false
  end.

Definition stopped_by_office_hours (i : instance) : bool :=
  bool_decide (is_Some (tags_of i !! "StoppedByOfficeHours")).

Definition has_no_tags (i : instance) : Prop :=
  Tags i = None \/ Tags i = Some [].

(** OfficeHoursPolicy: (a) not part of an autoscaling group, (b) lifecycle
    class not spot, (c) [OfficeHours] absent or not case-insensitively
    equal to ["false"]. *)
Definition OfficeHoursPolicy (i : instance) : bool :=
  negb (in_autoscaling_group i) && negb (is_spot i) && negb (opted_out i).

(** The policy, and for start-eligibility the secondary predicate too. *)
Definition eligible (only_previously_stopped : bool) (i : instance) : bool :=
  OfficeHoursPolicy i
  && (negb only_previously_stopped || stopped_by_office_hours i).

(** [select(instances, only_previously_stopped)] of the specification. *)
Definition select (instances : list instance)
    (only_previously_stopped : bool) : list string :=
  InstanceId <$> List.filter (eligible only_previously_stopped) instances.

(** All instances of a snapshot, in snapshot order. *)
Definition all_instances (Reservations : list reservation) : list instance :=
  concat (Instances <$> Reservations).

(** ** The provider client and the skill monad *)

(** Calls to the boto EC2 client, with the arguments the skills pass. *)
Inductive call :=
| DescribeInstances (Filters : option (string * list string))
| DescribeInstanceStatus (InstanceIds : list string)
| StartInstances (InstanceIds : list string)
| StopInstances (InstanceIds : list string)
| CreateTags (Resources : list string) (NewTags : list tag)
| DeleteTags (Resources : list string) (TagKeys : list string).

(** What a run of a skill does that the outside can see, in order. *)
Inductive event :=
| Call (c : call)
| Respond (text : string)
| Sleep (seconds : nat).

(** One entry of [StartingInstances] / [StoppingInstances]. *)
Record state_change := StateChange {
  ChangedInstanceId : string;
  CurrentStateName : string
}.

(** A provider call either raises [botocore.exceptions.ClientError] (the
    text is [str(e)]) or returns a reply; it may change the provider. *)
Definition reply (S A : Type) : Type := S -> (string + A) * S.

Record Client (S : Type) := {
  describe_instances : option (string * list string) -> reply S (list reservation);
  (* [InstanceStatuses], each entry reduced to its [InstanceState.Name] *)
  describe_instance_status : list string -> reply S (list string);
  start_instances : list string -> reply S (list state_change);
  stop_instances : list string -> reply S (list state_change);
  create_tags : list string -> list tag -> reply S unit;
  delete_tags : list string -> list string -> reply S unit
}.
Arguments describe_instances {S}.
Arguments describe_instance_status {S}.
Arguments start_instances {S}.
Arguments stop_instances {S}.
Arguments create_tags {S}.
Arguments delete_tags {S}.

Record world (S : Type) := World { client_state : S; trace : list event }.
Arguments World {S}.
Arguments client_state {S}.
Arguments trace {S}.

Inductive outcome (A : Type) :=
| Done (a : A)
| Raised (e : string)
| OutOfFuel.
Arguments Done {A}.
Arguments Raised {A}.
Arguments OutOfFuel {A}.

Definition skill (S A : Type) : Type := world S -> outcome A * world S.

Definition ret {S A} (a : A) : skill S A := fun w => (Done a, w).

Definition bind {S A B} (m : skill S A) (k : A -> skill S B) : skill S B :=
  fun w =>
    match m w with
    | (Done a, w') => k a w'
    | (Raised e, w') => (Raised e, w')
    | (OutOfFuel, w') => (OutOfFuel, w')
    end.

Notation "x <- m ;; k" := (bind m (fun x => k))
  (at level 100, m at next level, right associativity).
Notation "m ;;; k" := (bind m (fun _ => k))
  (at level 100, right associativity).

Definition emit {S} (ev : event) : skill S unit :=
  fun w => (Done tt, World (client_state w) (trace w ++ [ev])).

(** [try: body except botocore.exceptions.ClientError as e: handler(e)] *)
Definition try_except {S A} (body : skill S A) (handler : string -> skill S A)
  : skill S A :=
  fun w =>
    match body w with
    | (Raised e, w') => handler e w'
    | r => r
    end.

(** A provider call: recorded in the trace, then run on the provider. *)
Definition provider {S A} (c : call) (op : reply S A) : skill S A :=
  fun w =>
    match op (client_state w) with
    | (inl e, s') => (Raised e, World s' (trace w ++ [Call c]))
    | (inr a, s') => (Done a, World s' (trace w ++ [Call c]))
    end.

(** [await message.respond(text)] *)
Definition respond {S} (text : string) : skill S unit := emit (Respond text).

(** [await asyncio.sleep(seconds)] *)
Definition sleep {S} (seconds : nat) : skill S unit := emit (Sleep seconds).

(** [for x in xs: body(x)] *)
Fixpoint for_each {S A} (xs : list A) (body : A -> skill S unit) : skill S unit :=
  match xs with
  | [] => ret tt
  | x :: xs' => body x ;;; for_each xs' body
  end.

(** [str(n)] for a natural number and for an integer. *)
Definition str_nat (n : nat) : string := NilZero.string_of_uint (Nat.to_uint n).
Definition str_Z (z : Z) : string := NilZero.string_of_int (Z.to_int z).

(** [random.choice(options)] with the random draw [rnd] made explicit. *)
Definition random_choice (rnd : nat) (options : list string) : string :=
  nth (rnd mod length options) options EmptyString.

(** ** Skills *)

Section Skills.
Context {S : Type} (client : Client S).

(** [get_office_hours_instances(client, only_stopped)] *)
Definition get_office_hours_instances (only_stopped : bool)
  : skill S (list string) :=
  response <- provider (DescribeInstances None)
                       (describe_instances client None) ;;
  ret (office_hours_instances response only_stopped).

(** The [while] loop of [aws_watch_instance_state_until_change], entered
    with the current values of [new_state] and [check_count].  One unit
    of fuel pays for one iteration. *)
Fixpoint watch_loop (fuel : nat) (instanceid state new_state : string)
    (check_count : nat) : skill S unit :=
  if String.eqb state new_state || Nat.ltb 60 check_count then
    match fuel with
    | O => fun w => (OutOfFuel, w)
    | Datatypes.S fuel' =>
        let check_count := check_count + 1 in
        response <- provider (DescribeInstanceStatus [instanceid])
                      (describe_instance_status client [instanceid]) ;;
        new_state <-
          match response with
          | status :: _ =>
              let new_state := status in
              (if negb (String.eqb new_state state)
               then respond ("Instance " +:+ instanceid +:+ " is now "
                               +:+ new_state)
               else ret tt) ;;;
              ret new_state
          | [] => ret new_state
          end ;;
        sleep 5 ;;;
        watch_loop fuel' instanceid state new_state check_count
    end
  else ret tt.

Definition aws_watch_instance_state_until_change (fuel : nat)
    (instanceid state : string) : skill S unit :=
  let new_state := state in
  let check_count := 0 in
  watch_loop fuel instanceid state new_state check_count.

(** The name shown for an instance by [aws_list_servers]. *)
Definition display_name (i : instance) : string :=
  match Tags i with
  | Some tags =>
      let names :=
        Value <$> List.filter (fun x => String.eqb (Key x) "Name") tags in
      if Nat.eqb (length names) 1 then nth 0 names EmptyString else EmptyString
  | None => EmptyString
  end.

(** The uptime column: [now] is [datetime.utcnow()] in seconds, and
    [timedelta.days] rounds towards minus infinity. *)
Definition display_uptime (now : Z) (i : instance) : string :=
  let days := ((now - LaunchTime i) / 86400)%Z in
  if (days <? 1)%Z then "<1d" else str_Z days +:+ "d".

Definition table_row (now : Z) (i : instance) : list string :=
  [ display_name i; InstanceId i; StateName i;
    default EmptyString (PublicIpAddress i); display_uptime now i ].

(** The rows added to the table by the two nested loops. *)
Definition table_rows (now : Z) (Reservations : list reservation)
  : list (list string) :=
  foldl (fun rows r =>
           foldl (fun rows i => rows ++ [table_row now i]) rows (Instances r))
        [] Reservations.

(** [table.get_string()] of PrettyTable, for the field names and rows. *)
Variable get_string : list string -> list (list string) -> string.

Definition newline : string := String (ascii_of_nat 10) EmptyString.

Definition aws_list_servers (now : Z) : skill S unit :=
  response <- provider
                (DescribeInstances (Some ("instance-state-name", ["running"])))
                (describe_instances client
                   (Some ("instance-state-name", ["running"]))) ;;
  respond ("```" +:+ newline
             +:+ get_string ["Name"; "ID"; "State"; "IP"; "Uptime"]
                            (table_rows now response)
             +:+ newline +:+ "```").

Definition aws_count_servers (status : string) : skill S unit :=
  response <- provider
                (DescribeInstances (Some ("instance-state-name", [status])))
                (describe_instances client
                   (Some ("instance-state-name", [status]))) ;;
  respond ("There are " +:+ str_nat (length response)
             +:+ " servers " +:+ status).

Definition changed_message (sc : state_change) : string :=
  "Changed instance " +:+ ChangedInstanceId sc +:+ " to "
    +:+ CurrentStateName sc.

(** [fuel] bounds each watch started by the skill. *)
Definition aws_start_server (fuel : nat) (instanceid : string)
  : skill S unit :=
  response <- provider (StartInstances [instanceid])
                       (start_instances client [instanceid]) ;;
  try_except
    (response <- provider (StartInstances [instanceid])
                          (start_instances client [instanceid]) ;;
     for_each response (fun sc =>
       respond (changed_message sc) ;;;
       aws_watch_instance_state_until_change fuel
         (ChangedInstanceId sc) (CurrentStateName sc)))
    (fun e => respond e).

Definition aws_stop_server (instanceid : string) : skill S unit :=
  try_except
    (response <- provider (StopInstances [instanceid])
                          (stop_instances client [instanceid]) ;;
     for_each response (fun sc => respond (changed_message sc)))
    (fun e => respond e).

Definition byes : list string :=
  [ "Right, I'm done for the day. Shutting down and going home, Bye!";
    "Ok I'm off. Shutting down the dev stacks. See ya!" ].

Definition hellos : list string :=
  [ "Morning everyone, I'm in work bright and early and ready to get stuff done!";
    "Morning all, let's have a productive day!" ].

Definition stopped_tag : tag := Tag "StoppedByOfficeHours" "true".

(** The skill scheduled at 17:30 on weekdays.  Replies go to [message],
    which is the default room of the default connector when the skill
    runs from the schedule. *)
Definition aws_stop_dev (rnd : nat) : skill S unit :=
  respond (random_choice rnd byes) ;;;
  instances <- get_office_hours_instances false ;;
  if Nat.ltb 0 (length instances) then
    respond ("Shutting down " +:+ str_nat (length instances)
               +:+ " dev instances") ;;;
    try_except
      (provider (StopInstances instances) (stop_instances client instances) ;;;
       provider (CreateTags instances [stopped_tag])
                (create_tags client instances [stopped_tag]))
      (fun e => respond e)
  else
    respond "I couldn't find any instances to shut down".

(** The skill scheduled at 08:00 on weekdays (the source names it
    [aws_stop_dev] a second time). *)
Definition aws_start_dev (rnd : nat) : skill S unit :=
  respond (random_choice rnd hellos) ;;;
  instances <- get_office_hours_instances true ;;
  if Nat.ltb 0 (length instances) then
    respond ("Starting " +:+ str_nat (length instances)
               +:+ " dev instances") ;;;
    try_except
      (provider (StartInstances instances)
                (start_instances client instances) ;;;
       provider (DeleteTags instances ["StoppedByOfficeHours"])
                (delete_tags client instances ["StoppedByOfficeHours"]))
      (fun e => respond e)
  else
    respond "I couldn't find any instances to start".

End Skills.

(** ** A scripted provider

    A client whose replies are fixed in advance.  Its state is the number
    of calls received so far, so that a reply may depend on the position
    of the call in the run. *)

Record script := Script {
  on_describe_instances : string + list reservation;
  on_describe_instance_status : nat -> string + list string;
  on_start_instances : nat -> string + list state_change;
  on_stop_instances : nat -> string + list state_change;
  on_create_tags : string + unit;
  on_delete_tags : string + unit
}.

Definition scripted (sc : script) : Client nat := {|
  describe_instances _ n := (on_describe_instances sc, Datatypes.S n);
  describe_instance_status _ n := (on_describe_instance_status sc n, Datatypes.S n);
  start_instances _ n := (on_start_instances sc n, Datatypes.S n);
  stop_instances _ n := (on_stop_instances sc n, Datatypes.S n);
  create_tags _ _ n := (on_create_tags sc, Datatypes.S n);
  delete_tags _ _ n := (on_delete_tags sc, Datatypes.S n)
|}.

(** A provider that holds [snapshot] and answers every poll with the
    states [statuses k], [k] being the number of polls already made. *)
Definition quiet (snapshot : list reservation) (statuses : nat -> list string)
  : script :=
  Script (inr snapshot) (fun n => inr (statuses n)) (fun _ => inr [])
         (fun _ => inr []) (inr tt) (inr tt).

Definition start : world nat := World 0 [].

(** The observable events of a run, by kind. *)
Definition responses (t : list event) : list string :=
  omap (fun ev => match ev with Respond text => Some text | _ => None end) t.

Definition calls (t : list event) : list call :=
  omap (fun ev => match ev with Call c => Some c | _ => None end) t.

Definition is_poll (c : call) : bool :=
  match c with DescribeInstanceStatus _ => true | _ => false end.

Definition is_mutation (c : call) : bool :=
  match c with
  | StartInstances _ | StopInstances _ | CreateTags _ _ | DeleteTags _ _ => true
  | _ => false
  end.

Definition polls (t : list event) : nat :=
  length (List.filter is_poll (calls t)).

(** What the tag write of the stop action does to one instance of the
    snapshot: the instances named in [ids] gain the tag
    [StoppedByOfficeHours], and nothing else changes. *)
Definition tagged_by_stop (ids : list string) (before after : instance) : Prop :=
  InstanceId after = InstanceId before
  /\ InstanceLifecycle after = InstanceLifecycle before
  /\ tags_of after =
       if bool_decide (InstanceId before ∈ ids)
       then <["StoppedByOfficeHours" := "true"]> (tags_of before)
       else tags_of before.

Definition snapshot_tagged_by_stop (ids : list string)
    (before after : list reservation) : Prop :=
  Forall2 (fun r r' => Forall2 (tagged_by_stop ids) (Instances r) (Instances r'))
          before after.

(** ** Sample instances and snapshots *)

Definition on_demand (id : string) (tags : option (list tag)) : instance :=
  Instance id tags None "running" None 0.

Definition untagged : instance := on_demand "i-1" None.
Definition opted_out_instance : instance :=
  on_demand "i-2" (Some [Tag "Name" "build"; Tag "OfficeHours" "False"]).
Definition autoscaled : instance :=
  on_demand "i-3" (Some [Tag "aws:autoscaling:groupName" "g1"]).
Definition untagged_spot : instance :=
  Instance "i-4" None (Some "spot") "running" None 0.
Definition previously_stopped : instance :=
  on_demand "i-5" (Some [Tag "StoppedByOfficeHours" "true"]).

Definition sample_snapshot : list reservation :=
  [ Reservation [untagged; opted_out_instance];
    Reservation [autoscaled; untagged_spot; previously_stopped] ].

(** [sample_snapshot] after the stop action has tagged ["i-1"] and ["i-5"]. *)
Definition sample_snapshot_stopped : list reservation :=
  [ Reservation [ on_demand "i-1" (Some [Tag "StoppedByOfficeHours" "true"]);
                  opted_out_instance ];
    Reservation [autoscaled; untagged_spot; previously_stopped] ].

(** ** Sample poll scripts for the watcher *)

(** One poll that shows no change: the call and the sleep. *)
Definition idle_poll (instanceid : string) : list event :=
  [Call (DescribeInstanceStatus [instanceid]); Sleep 5].

(** One poll that shows [new_state]: the call, the notification, the sleep. *)
Definition notified_poll (instanceid new_state : string) : list event :=
  [ Call (DescribeInstanceStatus [instanceid]);
    Respond ("Instance " +:+ instanceid +:+ " is now " +:+ new_state);
    Sleep 5 ].

Fixpoint times {A} (n : nat) (l : list A) : list A :=
  match n with
  | O => []
  | Datatypes.S n' => l ++ times n' l
  end.

(** A poll reply that shows no state other than [state]: no status entry
    at all, or a first entry equal to [state]. *)
Definition shows_no_change (state : string) (statuses : list string) : Prop :=
  match statuses with
  | [] => True
  | status :: _ => status = state
  end.

(** The instance stays ["stopped"] for ever. *)
Definition never_changes : script := quiet [] (fun _ => ["stopped"]).

(** ["stopped", "stopped", "running"]: the change shows at the third poll. *)
Definition changes_at_third_poll : script :=
  quiet [] (fun k => if Nat.ltb k 2 then ["stopped"] else ["running"]).

(** The instance is ["stopped"] for sixty polls and ["running"] from the
    sixty-first poll on. *)
Definition changes_at_poll_61 : script :=
  quiet [] (fun k => if Nat.ltb k 60 then ["stopped"] else ["running"]).

(** ** The display name as the specification words it *)

(** The value of the first tag whose key is [Name], or the empty string. *)
Definition first_name_tag (i : instance) : string :=
  match Tags i with
  | Some tags =>
      match List.find (fun x => String.eqb (Key x) "Name") tags with
      | Some t => Value t
      | None => EmptyString
      end
  | None => EmptyString
  end.

(** How many tags of the instance have the key [Name]. *)
Definition name_tags (i : instance) : nat :=
  match Tags i with
  | Some tags => length (List.filter (fun x => String.eqb (Key x) "Name") tags)
  | None => 0
  end.

(** ** Sample inputs for the skills *)

Definition two_names : instance :=
  on_demand "i-7" (Some [Tag "Name" "web"; Tag "Name" "db"]).

(** One reservation that holds two running instances. *)
Definition one_reservation_two_instances : list reservation :=
  [ Reservation [ on_demand "i-1" (Some [Tag "Name" "web"]);
                  on_demand "i-2" None ] ].

(** A provider that rejects every start call. *)
Definition start_rejected : script :=
  Script (inr []) (fun _ => inr []) (fun _ => inl "ClientError: start refused")
         (fun _ => inr []) (inr tt) (inr tt).

(** A provider that holds [sample_snapshot] and rejects every stop call. *)
Definition stop_rejected : script :=
  Script (inr sample_snapshot) (fun _ => inr []) (fun _ => inr [])
         (fun _ => inl "ClientError: stop refused") (inr tt) (inr tt).

(** The run of a skill only adds events to the trace. *)
Definition extends {S A} (m : skill S A) : Prop :=
  forall w, exists added, trace (snd (m w)) = trace w ++ added.

(** A provider whose snapshot holds only instances outside the policy. *)
Definition nothing_to_stop : script :=
  quiet [Reservation [opted_out_instance; autoscaled; untagged_spot]]
        (fun _ => []).

Definition is_create_tags (c : call) : bool :=
  match c with CreateTags _ _ => true | _ => false end.

(** ** Creating the client *)

(** What [aws_get_client] passes to [boto3.client]: the service name and
    the keyword arguments, each of them given or left out. *)
Record client_arguments := ClientArguments {
  arg_service : string;
  arg_aws_access_key_id : option string;
  arg_aws_secret_access_key : option string;
  arg_region_name : option string
}.

(** [aws_get_client(service, config)], as the call that it makes. *)
Definition aws_get_client (service : string) (config : gmap string string)
  : client_arguments :=
  if key_in "aws_access_key_id" config
     && key_in "aws_secret_access_key" config
     && key_in "region_name" config
  then ClientArguments service (config !! "aws_access_key_id")
                       (config !! "aws_secret_access_key")
                       (config !! "region_name")
  else if key_in "region_name" config
  then ClientArguments service None None (config !! "region_name")
  else ClientArguments service None None None.

(** The five instances of [sample_snapshot] in a single reservation. *)
Definition sample_snapshot_regrouped : list reservation :=
  [ Reservation [ untagged; opted_out_instance; autoscaled; untagged_spot;
                  previously_stopped ] ].

(** What one answered poll of a watch adds to the trace: a silent poll,
    or a poll that notifies a state other than the reference state. *)
Definition watch_block (instanceid state : string) (evs : list event) : Prop :=
  evs = idle_poll instanceid
  \/ exists new_state, new_state <> state
                       /\ evs = notified_poll instanceid new_state.

(** A poll that was not answered: the call alone. *)
Definition failed_poll (instanceid : string) : list event :=
  [Call (DescribeInstanceStatus [instanceid])].

(** A configuration with both keys and the region, and one with the keys
    but no region. *)
Definition full_config : gmap string string :=
  <["aws_access_key_id" := "AKIA"]>
    (<["aws_secret_access_key" := "secret"]>
       (<["region_name" := "eu-west-2"]> ∅)).

Definition keys_only_config : gmap string string :=
  <["aws_access_key_id" := "AKIA"]> (<["aws_secret_access_key" := "secret"]> ∅).

Definition named : instance := on_demand "i-8" (Some [Tag "Name" "web"; Tag "env" "dev"]).

(** A provider that holds [sample_snapshot], accepts the stop call and
    rejects the tag write. *)
Definition tag_write_rejected : script :=
  Script (inr sample_snapshot) (fun _ => inr []) (fun _ => inr [])
         (fun _ => inr []) (inl "ClientError: tags refused") (inr tt).

(** A provider that rejects [describe_instances]. *)
Definition describe_rejected : script :=
  Script (inl "ClientError: describe refused") (fun _ => inr [])
         (fun _ => inr []) (fun _ => inr []) (inr tt) (inr tt).

(** The events that open a run of the scheduled stop action on a
    non-empty selection, up to and including the stop call. *)
Definition stop_dev_prefix (rnd : nat) (instances : list string) : list event :=
  [ Respond (random_choice rnd byes);
    Call (DescribeInstances None);
    Respond ("Shutting down " +:+ str_nat (length instances)
               +:+ " dev instances");
    Call (StopInstances instances) ].

(** The same for the scheduled start action, up to the start call. *)
Definition start_dev_prefix (rnd : nat) (instances : list string) : list event :=
  [ Respond (random_choice rnd hellos);
    Call (DescribeInstances None);
    Respond ("Starting " +:+ str_nat (length instances) +:+ " dev instances");
    Call (StartInstances instances) ].

(** The run of a skill only adds events that satisfy [P] to the trace. *)
Definition adds_only {S A} (P : event -> Prop) (m : skill S A) : Prop :=
  forall w, exists added,
    trace (snd (m w)) = trace w ++ added /\ Forall P added.

(** An event that is a message, a sleep, or a status poll: no call that
    changes the provider and no [describe_instances]. *)
Definition poll_or_silent (ev : event) : Prop :=
  match ev with
  | Call c => is_poll c = true
  | _ => True
  end.

Definition is_start_call (c : call) : bool :=
  match c with StartInstances _ => true | _ => false end.

(** What [aws_start_server] does for the entries of [StartingInstances]:
    the body of its [for] loop. *)
Definition announce_and_watch {S} (client : Client S) (fuel : nat)
    (sc : state_change) : skill S unit :=
  respond (changed_message sc) ;;;
  aws_watch_instance_state_until_change client fuel
    (ChangedInstanceId sc) (CurrentStateName sc).

(** A provider that accepts the start calls for two instances, answers
    the first status poll with ["pending"] and rejects the second. *)
Definition second_poll_rejected : script :=
  Script (inr [])
         (fun n => if Nat.leb n 2 then inr ["pending"]
                   else inl "ClientError: status refused")
         (fun _ => inr [StateChange "i-9" "pending"; StateChange "i-10" "pending"])
         (fun _ => inr []) (inr tt) (inr tt).

(** * Verification *)

(** ** Facts about lower-casing *)

Lemma nat_of_lower_ascii (c : ascii) :
  nat_of_ascii (lower_ascii c) = lower_code (nat_of_ascii c).
Proof.
  unfold lower_ascii, lower_code.
  destruct (Nat.leb 65 (nat_of_ascii c) && Nat.leb (nat_of_ascii c) 90) eqn:E;
    [|reflexivity].
  apply andb_prop in E as [_ E]. apply Nat.leb_le in E.
  apply nat_ascii_embedding. lia.
Qed.

Lemma ascii_eq_ignore_case_lower (a b : ascii) :
  ascii_eq_ignore_case a b = Ascii.eqb (lower_ascii a) (lower_ascii b).
Proof.
  apply eq_true_iff_eq. rewrite Ascii.eqb_eq.
  transitivity (lower_code (nat_of_ascii a) = lower_code (nat_of_ascii b)).
  - unfold ascii_eq_ignore_case, lower_code.
    rewrite !orb_true_iff, !andb_true_iff, !Nat.eqb_eq, !Nat.leb_le.
    destruct (Nat.leb 65 (nat_of_ascii a) && Nat.leb (nat_of_ascii a) 90) eqn:Ea;
    destruct (Nat.leb 65 (nat_of_ascii b) && Nat.leb (nat_of_ascii b) 90) eqn:Eb;
    first [ apply andb_true_iff in Ea as [Ea1 Ea2];
            apply Nat.leb_le in Ea1; apply Nat.leb_le in Ea2
          | apply andb_false_iff in Ea as [Ea|Ea]; apply Nat.leb_gt in Ea ];
    first [ apply andb_true_iff in Eb as [Eb1 Eb2];
            apply Nat.leb_le in Eb1; apply Nat.leb_le in Eb2
          | apply andb_false_iff in Eb as [Eb|Eb]; apply Nat.leb_gt in Eb ];
    lia.
  - rewrite <- !nat_of_lower_ascii. split; [|congruence].
    intros H. rewrite <- (ascii_nat_embedding (lower_ascii a)),
                <- (ascii_nat_embedding (lower_ascii b)). congruence.
Qed.

Lemma eq_ignore_case_lower (s t : string) :
  eq_ignore_case s t = String.eqb (lower s) (lower t).
Proof.
  revert t. induction s as [|a s IH]; intros [|b t]; simpl; try reflexivity.
  rewrite ascii_eq_ignore_case_lower, IH.
  destruct (Ascii.eqb (lower_ascii a) (lower_ascii b)); reflexivity.
Qed.

Lemma lower_false_eq_ignore_case (v : string) :
  String.eqb (lower v) "false" = eq_ignore_case v "false".
Proof. rewrite eq_ignore_case_lower. reflexivity. Qed.

(** ** The tag dictionary *)

Lemma clean_tags_snoc (l : list tag) (t : tag) :
  clean_tags (l ++ [t]) = <[Key t := Value t]> (clean_tags l).
Proof. unfold clean_tags. now rewrite foldl_app. Qed.

(** An empty tag list gives the empty dictionary, and a repeated key keeps
    the value written last. *)
Lemma clean_tags_last_write_wins (l : list tag) (k v : string) :
  clean_tags [] = ∅ /\ clean_tags (l ++ [Tag k v]) !! k = Some v.
Proof. split; [reflexivity|]. rewrite clean_tags_snoc. apply lookup_insert_eq. Qed.

(** With keys that do not repeat, as the provider returns them, the
    dictionary holds each tag of the list. *)
Lemma clean_tags_lookup (l : list tag) (k v : string) :
  NoDup (Key <$> l) -> Tag k v ∈ l -> clean_tags l !! k = Some v.
Proof.
  induction l as [|t l IH] using rev_ind; intros Hnd Hin; [inversion Hin|].
  rewrite fmap_app in Hnd. apply NoDup_app in Hnd as (Hnd & Hfresh & _).
  rewrite clean_tags_snoc. apply elem_of_app in Hin as [Hin|Hin].
  - rewrite lookup_insert_ne; [now apply IH|].
    intros Hk. apply (Hfresh k).
    + apply list_elem_of_fmap. exists (Tag k v). now split.
    + rewrite <- Hk. simpl. apply list_elem_of_here.
  - apply list_elem_of_singleton in Hin as <-. apply lookup_insert_eq.
Qed.

(** ** The selector refines its specification *)

Lemma key_in_is_Some (k : string) (d : gmap string string) :
  key_in k d = bool_decide (is_Some (d !! k)).
Proof.
  unfold key_in. destruct (d !! k) as [v|].
  - symmetry. apply bool_decide_eq_true. eauto.
  - symmetry. apply bool_decide_eq_false. apply is_Some_None.
Qed.

Lemma lifecycle_not_spot (i : instance) :
  match InstanceLifecycle i with
  | None => true
  | Some lifecycle => negb (String.eqb lifecycle "spot")
  end = negb (is_spot i).
Proof.
  unfold is_spot. destruct (InstanceLifecycle i) as [lc|]; [|reflexivity].
  destruct (String.eqb_spec lc "spot") as [->|Hne]; simpl.
  - reflexivity.
  - symmetry. apply negb_true_iff, bool_decide_eq_false. congruence.
Qed.

Lemma office_hours_not_opted_out (i : instance) :
  match tags_of i !! "OfficeHours" with
  | None => true
  | Some v => negb (String.eqb (lower v) "false")
  end = negb (opted_out i).
Proof.
  unfold opted_out. destruct (tags_of i !! "OfficeHours") as [v|]; [|reflexivity].
  now rewrite lower_false_eq_ignore_case.
Qed.

Lemma select_app (l1 l2 : list instance) (only : bool) :
  select (l1 ++ l2) only = select l1 only ++ select l2 only.
Proof. unfold select. now rewrite List.filter_app, fmap_app. Qed.

Lemma select_cons (i : instance) (l : list instance) (only : bool) :
  select (i :: l) only = select [i] only ++ select l only.
Proof. apply (select_app [i] l). Qed.

Lemma select_one (i : instance) (only : bool) :
  select [i] only = if eligible only i then [InstanceId i] else [].
Proof. unfold select. simpl. now destruct (eligible only i). Qed.

Lemma office_hours_step_select (only : bool) (acc : list string) (i : instance) :
  office_hours_step only acc i = acc ++ select [i] only.
Proof.
  rewrite select_one. unfold office_hours_step, eligible, OfficeHoursPolicy.
  cbv zeta.
  rewrite !key_in_is_Some, lifecycle_not_spot, office_hours_not_opted_out.
  fold (in_autoscaling_group i). fold (stopped_by_office_hours i).
  destruct (in_autoscaling_group i), (is_spot i), (opted_out i), only,
    (stopped_by_office_hours i); simpl; now rewrite ?app_nil_r.
Qed.

Lemma office_hours_inner_select (only : bool) (l : list instance)
    (acc : list string) :
  foldl (office_hours_step only) acc l = acc ++ select l only.
Proof.
  revert acc. induction l as [|i l IH]; intros acc; simpl.
  - unfold select. simpl. now rewrite app_nil_r.
  - rewrite IH, office_hours_step_select, (select_cons i l).
    now rewrite app_assoc.
Qed.

Lemma office_hours_outer_select (only : bool) (rs : list reservation)
    (acc : list string) :
  foldl (fun instances r =>
           foldl (office_hours_step only) instances (Instances r)) acc rs
  = acc ++ select (all_instances rs) only.
Proof.
  revert acc. induction rs as [|r rs IH]; intros acc; simpl.
  - unfold select. simpl. now rewrite app_nil_r.
  - rewrite IH, office_hours_inner_select. unfold all_instances. simpl.
    now rewrite select_app, app_assoc.
Qed.

(** The loops of [get_office_hours_instances] compute [select] on the
    flattened snapshot. *)
Lemma office_hours_instances_select (rs : list reservation) (only : bool) :
  office_hours_instances rs only = select (all_instances rs) only.
Proof. unfold office_hours_instances. now rewrite office_hours_outer_select. Qed.

Lemma elem_of_select (x : string) (l : list instance) (only : bool) :
  x ∈ select l only <->
  exists i, i ∈ l /\ eligible only i = true /\ InstanceId i = x.
Proof.
  unfold select. rewrite list_elem_of_fmap. split.
  - intros (i & -> & Hi). apply list_elem_of_In, List.filter_In in Hi as [Hi He].
    exists i. split; [now apply list_elem_of_In|]. now split.
  - intros (i & Hi & He & <-). exists i. split; [reflexivity|].
    apply list_elem_of_In, List.filter_In. split; [now apply list_elem_of_In|done].
Qed.

Lemma NoDup_fmap_elem_inj {A B} (f : A -> B) (l : list A) (x y : A) :
  NoDup (f <$> l) -> x ∈ l -> y ∈ l -> f x = f y -> x = y.
Proof.
  induction l as [|a l IH]; simpl; intros Hnd Hx Hy Hf.
  - inversion Hx.
  - apply NoDup_cons in Hnd as [Ha Hnd].
    apply elem_of_cons in Hx as [->|Hx]; apply elem_of_cons in Hy as [->|Hy];
      try reflexivity; try now apply IH.
    + exfalso. apply Ha. rewrite Hf. apply list_elem_of_fmap. eauto.
    + exfalso. apply Ha. rewrite <- Hf. apply list_elem_of_fmap. eauto.
Qed.

Lemma all_instances_app (rs1 rs2 : list reservation) :
  all_instances (rs1 ++ rs2) = all_instances rs1 ++ all_instances rs2.
Proof. unfold all_instances. now rewrite fmap_app, concat_app. Qed.

Lemma all_instances_cons (r : reservation) (rs : list reservation) :
  all_instances (r :: rs) = Instances r ++ all_instances rs.
Proof. reflexivity. Qed.

(** An instance that is not eligible contributes nothing to the result. *)
Lemma select_drop (only : bool) (rs1 rs2 : list reservation)
    (is1 is2 : list instance) (i : instance) :
  eligible only i = false ->
  office_hours_instances (rs1 ++ Reservation (is1 ++ i :: is2) :: rs2) only
  = office_hours_instances (rs1 ++ Reservation (is1 ++ is2) :: rs2) only.
Proof.
  intros He. rewrite !office_hours_instances_select, !all_instances_app,
    !all_instances_cons. simpl.
  rewrite !select_app, (select_cons i is2), select_one, He. reflexivity.
Qed.

Lemma not_selected_unique (only : bool) (rs : list reservation) (i : instance) :
  eligible only i = false -> i ∈ all_instances rs ->
  NoDup (InstanceId <$> all_instances rs) ->
  InstanceId i ∉ office_hours_instances rs only.
Proof.
  intros He Hi Hnd Hin. rewrite office_hours_instances_select in Hin.
  apply elem_of_select in Hin as (j & Hj & Hej & Hid).
  assert (j = i) by (eapply NoDup_fmap_elem_inj; eauto). congruence.
Qed.

(** ** Properties of the selector *)

Lemma excluded_not_eligible (only : bool) (i : instance) :
  opted_out i = true \/ in_autoscaling_group i = true \/ is_spot i = true ->
  eligible only i = false.
Proof.
  unfold eligible, OfficeHoursPolicy.
  intros [H | [H | H]]; rewrite H; simpl;
    now rewrite ?andb_false_r, ?andb_false_l.
Qed.

(** C5. Whatever the snapshot around it and whatever else the instance
    carries, an instance whose [OfficeHours] tag is case-insensitively
    ["false"], or that has the autoscaling-group tag, or whose lifecycle
    class is spot, is excluded by [select(_, false)]: the result is the one
    obtained without the instance and, identifiers being unique in the
    snapshot, does not contain its identifier. *)
Theorem select_excludes_opted_out_autoscaling_spot
    (rs1 rs2 : list reservation) (is1 is2 : list instance) (i : instance) :
  opted_out i = true \/ in_autoscaling_group i = true \/ is_spot i = true ->
  office_hours_instances (rs1 ++ Reservation (is1 ++ i :: is2) :: rs2) false
  = office_hours_instances (rs1 ++ Reservation (is1 ++ is2) :: rs2) false
  /\ (NoDup (InstanceId <$>
               all_instances (rs1 ++ Reservation (is1 ++ i :: is2) :: rs2)) ->
      InstanceId i ∉
        office_hours_instances (rs1 ++ Reservation (is1 ++ i :: is2) :: rs2)
                               false).
Proof.
  intros Hex. apply (excluded_not_eligible false) in Hex. split.
  - now apply select_drop.
  - intros Hnd. apply not_selected_unique; [done| |done].
    rewrite all_instances_app, all_instances_cons. simpl.
    rewrite !elem_of_app, elem_of_cons. right. left. right. now left.
Qed.

Lemma select_excludes_witness :
  opted_out opted_out_instance = true
  /\ office_hours_instances sample_snapshot false = ["i-1"; "i-5"]
  /\ ("i-2" ∉ office_hours_instances sample_snapshot false).
Proof.
  pose proof (select_excludes_opted_out_autoscaling_spot
                [] (tail sample_snapshot) [untagged] [] opted_out_instance
                (or_introl eq_refl)) as [Heq Hnot].
  split; [reflexivity|]. split; [exact (eq_trans Heq eq_refl)|].
  apply Hnot. apply (bool_decide_unpack _). vm_compute. exact I.
Defined.

Lemma filter_andb {A} (p q : A -> bool) (l : list A) :
  List.filter (fun x => p x && q x) l = List.filter q (List.filter p l).
Proof.
  induction l as [|x l IH]; simpl; [reflexivity|].
  destruct (p x); simpl; [destruct (q x)|]; now rewrite IH.
Qed.

Lemma filter_sublist {A} (p : A -> bool) (l : list A) :
  List.filter p l `sublist_of` l.
Proof.
  induction l as [|x l IH]; simpl; [constructor|].
  destruct (p x); now constructor.
Qed.

Lemma select_false_policy (l : list instance) :
  select l false = InstanceId <$> List.filter OfficeHoursPolicy l.
Proof.
  unfold select. f_equal. apply List.filter_ext. intros i.
  unfold eligible. simpl. apply andb_true_r.
Qed.

Lemma select_true_policy (l : list instance) :
  select l true
  = InstanceId <$> List.filter stopped_by_office_hours
                     (List.filter OfficeHoursPolicy l).
Proof.
  unfold select. f_equal. rewrite <- filter_andb.
  apply List.filter_ext. intros i. reflexivity.
Qed.

Lemma no_tags_empty (i : instance) : has_no_tags i -> tags_of i = ∅.
Proof. unfold tags_of. now intros [-> | ->]. Qed.

Lemma no_tags_policy (i : instance) :
  has_no_tags i -> OfficeHoursPolicy i = negb (is_spot i).
Proof.
  intros H. unfold OfficeHoursPolicy, in_autoscaling_group, opted_out.
  rewrite (no_tags_empty i H), !lookup_empty.
  rewrite bool_decide_eq_false_2 by apply is_Some_None.
  simpl. apply andb_true_r.
Qed.

Lemma no_tags_not_stopped (i : instance) :
  has_no_tags i -> stopped_by_office_hours i = false.
Proof.
  intros H. unfold stopped_by_office_hours.
  rewrite (no_tags_empty i H), lookup_empty.
  apply bool_decide_eq_false_2, is_Some_None.
Qed.

(** C6, as amended.  [select(_, true)] returns the identifiers of exactly
    those instances kept by [select(_, false)] that carry the tag
    [StoppedByOfficeHours], so it is a sub-sequence of [select(_, false)].
    An instance with no tags at all is never kept by [select(_, true)]; it
    is kept by [select(_, false)] when its lifecycle class is not spot. *)
Theorem select_previously_stopped_restricts (snapshot : list reservation) :
  let kept := List.filter OfficeHoursPolicy (all_instances snapshot) in
  office_hours_instances snapshot false = InstanceId <$> kept
  /\ office_hours_instances snapshot true
     = InstanceId <$> List.filter stopped_by_office_hours kept
  /\ office_hours_instances snapshot true
       `sublist_of` office_hours_instances snapshot false
  /\ forall i : instance,
       i ∈ all_instances snapshot -> has_no_tags i ->
       (i ∉ List.filter stopped_by_office_hours kept)
       /\ (NoDup (InstanceId <$> all_instances snapshot) ->
           InstanceId i ∉ office_hours_instances snapshot true)
       /\ (is_spot i = false ->
           i ∈ kept /\ InstanceId i ∈ office_hours_instances snapshot false).
Proof.
  intros kept. subst kept.
  rewrite !office_hours_instances_select, select_false_policy,
    select_true_policy.
  split; [reflexivity|]. split; [reflexivity|].
  split; [apply fmap_sublist, filter_sublist|].
  intros i Hi Hno. split; [|split].
  - intros Hin. apply list_elem_of_In, List.filter_In in Hin as [_ Hst].
    rewrite no_tags_not_stopped in Hst by done. discriminate.
  - intros Hnd. rewrite <- select_true_policy,
      <- office_hours_instances_select.
    apply not_selected_unique; [|done|done].
    unfold eligible. rewrite no_tags_not_stopped by done.
    simpl. apply andb_false_r.
  - intros Hspot.
    assert (i ∈ List.filter OfficeHoursPolicy (all_instances snapshot)) as Hk.
    { apply list_elem_of_In, List.filter_In. split; [now apply list_elem_of_In|].
      rewrite no_tags_policy by done. now rewrite Hspot. }
    split; [done|]. apply list_elem_of_fmap. eauto.
Qed.

Lemma select_previously_stopped_witness :
  office_hours_instances sample_snapshot true
    `sublist_of` office_hours_instances sample_snapshot false
  /\ ("i-1" ∉ office_hours_instances sample_snapshot true)
  /\ ("i-1" ∈ office_hours_instances sample_snapshot false).
Proof.
  destruct (select_previously_stopped_restricts sample_snapshot)
    as (_ & _ & Hsub & Hno).
  split; [exact Hsub|].
  assert (untagged ∈ all_instances sample_snapshot) as Hin by apply list_elem_of_here.
  destruct (Hno untagged Hin (or_introl eq_refl)) as (_ & Hnot & Hyes).
  split.
  - apply Hnot. apply (bool_decide_unpack _). vm_compute. exact I.
  - apply Hyes. reflexivity.
Defined.

(** C6, as stated, fails on the code: an instance with no tags at all
    whose lifecycle class is spot is not returned by [select(_, false)]. *)
Lemma untagged_spot_not_selected :
  untagged_spot ∈ all_instances sample_snapshot
  /\ has_no_tags untagged_spot
  /\ (InstanceId untagged_spot ∉ office_hours_instances sample_snapshot false).
Proof.
  split; [|split].
  - unfold all_instances. simpl.
    repeat first [apply list_elem_of_here | apply list_elem_of_further].
  - now left.
  - apply (bool_decide_unpack _). vm_compute. exact I.
Qed.

(** ** The stop action's tag write and the start action's selection *)

Lemma tagged_by_stop_policy (ids : list string) (i i' : instance) :
  tagged_by_stop ids i i' -> OfficeHoursPolicy i' = OfficeHoursPolicy i.
Proof.
  intros (_ & Hlc & Htags).
  unfold OfficeHoursPolicy, in_autoscaling_group, is_spot, opted_out.
  rewrite Hlc, Htags. destruct (bool_decide (InstanceId i ∈ ids)); [|reflexivity].
  now rewrite !lookup_insert_ne by discriminate.
Qed.

Lemma tagged_by_stop_stopped (ids : list string) (i i' : instance) :
  tagged_by_stop ids i i' ->
  stopped_by_office_hours i'
  = bool_decide (InstanceId i ∈ ids) || stopped_by_office_hours i.
Proof.
  intros (_ & _ & Htags). unfold stopped_by_office_hours. rewrite Htags.
  destruct (bool_decide (InstanceId i ∈ ids)); [|reflexivity].
  rewrite lookup_insert_eq. reflexivity.
Qed.

Lemma tagged_by_stop_all (ids : list string) (before after : list reservation) :
  snapshot_tagged_by_stop ids before after ->
  Forall2 (tagged_by_stop ids) (all_instances before) (all_instances after).
Proof.
  induction 1 as [|r r' rs rs' Hr _ IH]; [constructor|].
  rewrite !all_instances_cons. now apply Forall2_app.
Qed.

Lemma select_after_stop (ids : list string) (l l' : list instance) :
  Forall2 (tagged_by_stop ids) l l' ->
  (forall i, i ∈ l -> OfficeHoursPolicy i = true -> InstanceId i ∈ ids) ->
  select l' true = select l false.
Proof.
  induction 1 as [|i i' l l' Hi _ IH]; intros Hids; [reflexivity|].
  rewrite (select_cons i'), (select_cons i), !select_one, IH.
  2:{ intros j Hj. apply Hids. now apply list_elem_of_further. }
  f_equal. unfold eligible.
  rewrite (tagged_by_stop_policy ids i i' Hi),
    (tagged_by_stop_stopped ids i i' Hi).
  destruct Hi as (-> & _). simpl.
  destruct (OfficeHoursPolicy i) eqn:Hp; [|reflexivity].
  rewrite bool_decide_eq_true_2; [reflexivity|].
  apply Hids; [apply list_elem_of_here|done].
Qed.

(** C10. When the tag [StoppedByOfficeHours] is added to exactly the
    instances whose identifiers [select(snapshot, false)] returns, and
    nothing else changes, [select(_, true)] on the updated snapshot returns
    that same sequence of identifiers. *)
Theorem stop_then_start_selects_the_same (before after : list reservation) :
  snapshot_tagged_by_stop (office_hours_instances before false) before after ->
  office_hours_instances after true = office_hours_instances before false.
Proof.
  intros H. apply tagged_by_stop_all in H.
  rewrite (office_hours_instances_select after).
  rewrite (office_hours_instances_select before false).
  apply (select_after_stop _ _ _ H).
  intros i Hi Hp. rewrite office_hours_instances_select.
  apply elem_of_select. exists i. split; [done|]. split; [|done].
  unfold eligible. now rewrite Hp.
Qed.

Lemma stop_then_start_witness :
  office_hours_instances sample_snapshot_stopped true = ["i-1"; "i-5"].
Proof.
  refine (eq_trans
            (stop_then_start_selects_the_same sample_snapshot
               sample_snapshot_stopped _) eq_refl).
  unfold snapshot_tagged_by_stop.
  repeat match goal with |- Forall2 _ _ _ => constructor; simpl end;
    (split; [reflexivity|split; [reflexivity|]]); vm_compute; reflexivity.
Defined.

(** ** The state watcher *)

Lemma responses_app (t1 t2 : list event) :
  responses (t1 ++ t2) = responses t1 ++ responses t2.
Proof. apply omap_app. Qed.

Lemma polls_app (t1 t2 : list event) : polls (t1 ++ t2) = polls t1 + polls t2.
Proof.
  unfold polls, calls. now rewrite omap_app, List.filter_app, length_app.
Qed.

Section Watcher.
Context {S : Type} (client : Client S).

(** One iteration of the loop, when the loop condition holds and the
    poll succeeds. *)
Lemma watch_loop_step (fuel : nat) (instanceid state new_state : string)
    (check_count : nat) (w : world S) (statuses : list string) (s' : S) :
  String.eqb state new_state || Nat.ltb 60 check_count = true ->
  describe_instance_status client [instanceid] (client_state w)
    = (inr statuses, s') ->
  watch_loop client (Datatypes.S fuel) instanceid state new_state
             check_count w
  = match statuses with
    | [] =>
        watch_loop client fuel instanceid state new_state (check_count + 1)
          (World s' (trace w ++ idle_poll instanceid))
    | status :: _ =>
        watch_loop client fuel instanceid state status (check_count + 1)
          (World s'
             (trace w ++ if String.eqb status state
                         then idle_poll instanceid
                         else notified_poll instanceid status))
    end.
Proof.
  intros Hcond Hpoll. cbn [watch_loop]. rewrite Hcond.
  unfold bind at 1. unfold provider. rewrite Hpoll.
  destruct statuses as [|status rest].
  - unfold bind, ret, sleep, emit. simpl.
    now rewrite <- app_assoc.
  - destruct (String.eqb status state);
      unfold bind, ret, sleep, respond, emit; simpl;
      now rewrite <- !app_assoc.
Qed.

Lemma watch_loop_out_of_fuel (instanceid state new_state : string)
    (check_count : nat) (w : world S) :
  String.eqb state new_state || Nat.ltb 60 check_count = true ->
  watch_loop client 0 instanceid state new_state check_count w
  = (OutOfFuel, w).
Proof. intros Hcond. cbn [watch_loop]. now rewrite Hcond. Qed.

Lemma watch_loop_exit (fuel : nat) (instanceid state new_state : string)
    (check_count : nat) (w : world S) :
  String.eqb state new_state || Nat.ltb 60 check_count = false ->
  watch_loop client fuel instanceid state new_state check_count w
  = (Done tt, w).
Proof. intros Hcond. destruct fuel; cbn [watch_loop]; now rewrite Hcond. Qed.

Variables instanceid state : string.

(** Every poll succeeds and shows no state other than [state]. *)
Hypothesis polls_show_no_change :
  forall s : S, exists statuses s',
    describe_instance_status client [instanceid] s = (inr statuses, s')
    /\ shows_no_change state statuses.

Lemma watch_loop_unchanged (fuel check_count : nat) (w : world S) :
  exists w',
    watch_loop client fuel instanceid state state check_count w
      = (OutOfFuel, w')
    /\ polls (trace w') = polls (trace w) + fuel
    /\ responses (trace w') = responses (trace w).
Proof.
  revert check_count w. induction fuel as [|fuel IH]; intros check_count w.
  - exists w. rewrite watch_loop_out_of_fuel
      by now rewrite String.eqb_refl.
    split; [reflexivity|]. split; [lia|reflexivity].
  - destruct (polls_show_no_change (client_state w))
      as (statuses & s' & Hpoll & Hsame).
    rewrite (watch_loop_step _ _ _ _ _ _ _ _
               ltac:(now rewrite String.eqb_refl) Hpoll).
    destruct statuses as [|status rest].
    + destruct (IH (check_count + 1)
                   (World s' (trace w ++ idle_poll instanceid)))
        as (w' & Hrun & Hpolls & Hresp).
      exists w'. split; [exact Hrun|]. rewrite Hpolls, Hresp. simpl.
      rewrite polls_app, responses_app. simpl.
      split; [unfold polls at 2; simpl; lia | now rewrite app_nil_r].
    + simpl in Hsame. subst status. rewrite String.eqb_refl.
      destruct (IH (check_count + 1)
                   (World s' (trace w ++ idle_poll instanceid)))
        as (w' & Hrun & Hpolls & Hresp).
      exists w'. split; [exact Hrun|]. rewrite Hpolls, Hresp. simpl.
      rewrite polls_app, responses_app. simpl.
      split; [unfold polls at 2; simpl; lia | now rewrite app_nil_r].
Qed.
End Watcher.

(** C1 (the code departs from it).  When no poll ever shows a state other
    than the reference state, the loop of the watcher does not stop after
    60 polls, nor after any number of polls: whatever the fuel, the run
    uses it all, has then made that many polls and has sent no
    notification. *)
Theorem watch_unchanged_never_terminates {S : Type} (client : Client S)
    (instanceid state : string) (fuel : nat) (w : world S) :
  (forall s : S, exists statuses s',
      describe_instance_status client [instanceid] s = (inr statuses, s')
      /\ shows_no_change state statuses) ->
  exists w',
    aws_watch_instance_state_until_change client fuel instanceid state w
      = (OutOfFuel, w')
    /\ polls (trace w') = polls (trace w) + fuel
    /\ responses (trace w') = responses (trace w).
Proof.
  intros Hpolls. unfold aws_watch_instance_state_until_change.
  now apply watch_loop_unchanged.
Qed.

Lemma watch_unchanged_witness :
  exists w',
    aws_watch_instance_state_until_change (scripted never_changes) 61
      "i-1" "stopped" start = (OutOfFuel, w')
    /\ polls (trace w') = 61
    /\ responses (trace w') = [].
Proof.
  apply (watch_unchanged_never_terminates (scripted never_changes)
           "i-1" "stopped" 61 start).
  intros s. exists ["stopped"], (Datatypes.S s). split; reflexivity.
Defined.

Section ScriptedWatch.
Variable snapshot : list reservation.
Variable statuses : nat -> list string.
Variables instanceid state : string.

(** [k] polls that show no change leave the loop where it was, [k]
    polls later. *)
Lemma watch_loop_idle (k fuel check_count n : nat) (t : list event) :
  (forall j, j < k -> shows_no_change state (statuses (n + j))) ->
  watch_loop (scripted (quiet snapshot statuses)) (k + fuel)
             instanceid state state check_count (World n t)
  = watch_loop (scripted (quiet snapshot statuses)) fuel
               instanceid state state (check_count + k)
               (World (n + k) (t ++ times k (idle_poll instanceid))).
Proof.
  revert check_count n t. induction k as [|k IH]; intros check_count n t Hk.
  - simpl. now rewrite !Nat.add_0_r, app_nil_r.
  - change (Datatypes.S k + fuel) with (Datatypes.S (k + fuel)).
    rewrite (watch_loop_step _ _ _ _ _ _ _ (statuses n) (Datatypes.S n));
      [|now rewrite String.eqb_refl|reflexivity].
    assert (match statuses n with
            | [] =>
                watch_loop (scripted (quiet snapshot statuses)) (k + fuel)
                  instanceid state state (check_count + 1)
                  (World (Datatypes.S n) (trace (World n t) ++ idle_poll instanceid))
            | status :: _ =>
                watch_loop (scripted (quiet snapshot statuses)) (k + fuel)
                  instanceid state status (check_count + 1)
                  (World (Datatypes.S n)
                     (trace (World n t) ++
                        (if String.eqb status state
                         then idle_poll instanceid
                         else notified_poll instanceid status)))
            end
            = watch_loop (scripted (quiet snapshot statuses)) (k + fuel)
                instanceid state state (check_count + 1)
                (World (Datatypes.S n) (t ++ idle_poll instanceid))) as ->.
    { pose proof (Hk 0 ltac:(lia)) as H0. rewrite Nat.add_0_r in H0.
      destruct (statuses n) as [|status rest]; [reflexivity|].
      simpl in H0. subst status. now rewrite String.eqb_refl. }
    rewrite IH.
    + simpl. rewrite <- !app_assoc.
      now replace (check_count + 1 + k) with (check_count + Datatypes.S k)
        by lia; replace (Datatypes.S (n + k)) with (n + Datatypes.S k) by lia.
    + intros j Hj. replace (Datatypes.S n + j) with (n + Datatypes.S j) by lia.
      apply Hk. lia.
Qed.

Variable new_state : string.
Hypothesis changed : new_state <> state.

(** A change seen at poll [k + 1], within the first 60 polls of the
    watch, is notified once and ends the watch. *)
Lemma watch_loop_change_within_budget (k fuel check_count n : nat)
    (t : list event) (rest : list string) :
  (forall j, j < k -> shows_no_change state (statuses (n + j))) ->
  statuses (n + k) = new_state :: rest ->
  check_count + k < 60 ->
  watch_loop (scripted (quiet snapshot statuses)) (k + Datatypes.S fuel)
             instanceid state state check_count (World n t)
  = (Done tt,
     World (n + Datatypes.S k)
           (t ++ times k (idle_poll instanceid)
              ++ notified_poll instanceid new_state)).
Proof.
  intros Hk Hnew Hcount. rewrite watch_loop_idle by done.
  rewrite (watch_loop_step _ _ _ _ _ _ _ (new_state :: rest)
             (Datatypes.S (n + k))).
  - apply String.eqb_neq in changed as Hne. rewrite Hne.
    rewrite watch_loop_exit.
    + simpl. rewrite <- app_assoc. do 2 f_equal. lia.
    + rewrite String.eqb_sym, Hne. simpl. apply Nat.ltb_ge. lia.
  - now rewrite String.eqb_refl.
  - simpl. now rewrite Hnew.
Qed.

(** Once [check_count] has reached 60, polls that show [new_state] are
    notified one after the other and the loop goes on. *)
Lemma watch_loop_noisy (fuel check_count n : nat) (current : string)
    (t : list event) :
  60 <= check_count ->
  String.eqb state current || Nat.ltb 60 check_count = true ->
  (forall j, statuses (n + j) = [new_state]) ->
  watch_loop (scripted (quiet snapshot statuses)) fuel
             instanceid state current check_count (World n t)
  = (OutOfFuel,
     World (n + fuel)
           (t ++ times fuel (notified_poll instanceid new_state))).
Proof.
  revert check_count n current t.
  induction fuel as [|fuel IH]; intros check_count n current t Hc Hcond Hst.
  - rewrite watch_loop_out_of_fuel by done. simpl.
    now rewrite Nat.add_0_r, app_nil_r.
  - rewrite (watch_loop_step _ _ _ _ _ _ _ [new_state] (Datatypes.S n))
      by (try done; simpl; now rewrite <- (Hst 0), Nat.add_0_r).
    apply String.eqb_neq in changed as Hne. rewrite Hne, IH.
    + simpl. rewrite <- !app_assoc. do 2 f_equal. lia.
    + lia.
    + replace (Nat.ltb 60 (check_count + 1)) with true
        by (symmetry; apply Nat.ltb_lt; lia).
      apply orb_true_r.
    + intros j. rewrite <- (Hst (Datatypes.S j)). f_equal. lia.
Qed.
End ScriptedWatch.

Lemma responses_idle (instanceid : string) (k : nat) :
  responses (times k (idle_poll instanceid)) = [].
Proof. induction k as [|k IH]; [reflexivity|]. simpl. exact IH. Qed.

Lemma polls_idle (instanceid : string) (k : nat) :
  polls (times k (idle_poll instanceid)) = k.
Proof.
  induction k as [|k IH]; [reflexivity|].
  change (times (Datatypes.S k) (idle_poll instanceid))
    with (idle_poll instanceid ++ times k (idle_poll instanceid)).
  rewrite polls_app, IH. reflexivity.
Qed.

Lemma responses_notified (instanceid new_state : string) (k : nat) :
  responses (times k (notified_poll instanceid new_state))
  = times k ["Instance " +:+ instanceid +:+ " is now " +:+ new_state].
Proof. induction k as [|k IH]; [reflexivity|]. simpl. now rewrite IH. Qed.

Lemma polls_notified (instanceid new_state : string) (k : nat) :
  polls (times k (notified_poll instanceid new_state)) = k.
Proof.
  induction k as [|k IH]; [reflexivity|].
  change (times (Datatypes.S k) (notified_poll instanceid new_state))
    with (notified_poll instanceid new_state
            ++ times k (notified_poll instanceid new_state)).
  rewrite polls_app, IH. reflexivity.
Qed.

(** C3, as amended.  For every scripted sequence of poll replies whose
    first reply showing a state other than the reference state is among the
    first 60 polls, the watch sends exactly one notification, carrying that
    state, and ends right after it (given fuel for these polls): the run is
    the silent polls, then the poll with its notification and sleep. *)
Theorem watch_notifies_first_change_once (snapshot : list reservation)
    (statuses : nat -> list string) (instanceid state new_state : string)
    (rest : list string) (k fuel : nat) :
  (forall j, j < k -> shows_no_change state (statuses j)) ->
  statuses k = new_state :: rest ->
  new_state <> state ->
  k < 60 ->
  aws_watch_instance_state_until_change (scripted (quiet snapshot statuses))
    (k + Datatypes.S fuel) instanceid state start
  = (Done tt,
     World (Datatypes.S k)
           (times k (idle_poll instanceid)
              ++ notified_poll instanceid new_state))
  /\ responses (times k (idle_poll instanceid)
                 ++ notified_poll instanceid new_state)
     = ["Instance " +:+ instanceid +:+ " is now " +:+ new_state].
Proof.
  intros Hk Hnew Hne Hbudget. split.
  - unfold aws_watch_instance_state_until_change, start.
    rewrite (watch_loop_change_within_budget _ _ _ _ new_state Hne
               k fuel 0 0 [] rest); [|done|done|lia].
    reflexivity.
  - now rewrite responses_app, responses_idle.
Qed.

(** The scenario of the specification: reference state ["stopped"] and
    polls showing ["stopped"], ["stopped"], ["running"]. *)
Lemma watch_change_at_third_poll :
  aws_watch_instance_state_until_change (scripted changes_at_third_poll)
    3 "i-1" "stopped" start
  = (Done tt,
     World 3 (idle_poll "i-1" ++ idle_poll "i-1"
                ++ notified_poll "i-1" "running"))
  /\ responses (idle_poll "i-1" ++ idle_poll "i-1"
                 ++ notified_poll "i-1" "running")
     = ["Instance i-1 is now running"].
Proof.
  refine (watch_notifies_first_change_once [] _ "i-1" "stopped" "running"
            [] 2 0 _ eq_refl _ _).
  - intros j Hj. apply Nat.ltb_lt in Hj. cbn beta. now rewrite Hj.
  - discriminate.
  - lia.
Defined.

(** Reference state ["stopped"]; the polls show ["stopped"] sixty times
    and ["running"] from then on.  The first differing state is notified
    at the sixty-first poll, but the watch does not end there: every
    further poll sends the notification again, so a run of [60 + extra]
    polls has sent [extra] notifications and is still going. *)
Lemma watch_change_after_60_polls_keeps_notifying (extra : nat) :
  exists w',
    aws_watch_instance_state_until_change (scripted changes_at_poll_61)
      (60 + extra) "i-1" "stopped" start = (OutOfFuel, w')
    /\ polls (trace w') = 60 + extra
    /\ responses (trace w') = times extra ["Instance i-1 is now running"].
Proof.
  unfold aws_watch_instance_state_until_change, changes_at_poll_61, start.
  rewrite watch_loop_idle.
  2:{ intros j Hj. cbn beta. apply Nat.ltb_lt in Hj.
      change (0 + j) with j. now rewrite Hj. }
  rewrite (watch_loop_noisy _ _ _ _ "running").
  - eexists. split; [reflexivity|]. cbn [trace].
    rewrite !polls_app, !responses_app, polls_idle, polls_notified,
      responses_idle, responses_notified.
    split; reflexivity.
  - discriminate.
  - reflexivity.
  - reflexivity.
  - intros j. cbn beta.
    replace (Nat.ltb (0 + 60 + j) 60) with false; [reflexivity|].
    symmetry. apply Nat.ltb_ge. lia.
Qed.

(** C3, as stated, fails on the code: with a first change at the
    sixty-first poll, two notifications have been sent after 62 polls and
    the watch has not ended. *)
Lemma watch_late_change_notifies_twice :
  exists w',
    aws_watch_instance_state_until_change (scripted changes_at_poll_61)
      62 "i-1" "stopped" start = (OutOfFuel, w')
    /\ polls (trace w') = 62
    /\ responses (trace w')
       = ["Instance i-1 is now running"; "Instance i-1 is now running"].
Proof. exact (watch_change_after_60_polls_keeps_notifying 2). Qed.

(** ** Skills only add to the trace *)

Lemma extends_ret {S A} (a : A) : extends (@ret S A a).
Proof. intros w. exists []. simpl. now rewrite app_nil_r. Qed.

Lemma extends_emit {S} (ev : event) : extends (@emit S ev).
Proof. intros w. now exists [ev]. Qed.

Lemma extends_provider {S A} (c : call) (op : reply S A) :
  extends (provider c op).
Proof.
  intros w. exists [Call c]. unfold provider.
  now destruct (op (client_state w)) as [[e|a] s'].
Qed.

Lemma extends_bind {S A B} (m : skill S A) (k : A -> skill S B) :
  extends m -> (forall a, extends (k a)) -> extends (bind m k).
Proof.
  intros Hm Hk w. unfold bind. destruct (Hm w) as [added Hadded].
  destruct (m w) as [[a|e|] w1]; simpl in *; [|now exists added..].
  destruct (Hk a w1) as [added' Hadded'].
  exists (added ++ added'). now rewrite Hadded', Hadded, app_assoc.
Qed.

Lemma extends_try_except {S A} (body : skill S A) (handler : string -> skill S A) :
  extends body -> (forall e, extends (handler e)) ->
  extends (try_except body handler).
Proof.
  intros Hb Hh w. unfold try_except. destruct (Hb w) as [added Hadded].
  destruct (body w) as [[a|e|] w1]; simpl in *; [now exists added| |now exists added].
  destruct (Hh e w1) as [added' Hadded'].
  exists (added ++ added'). now rewrite Hadded', Hadded, app_assoc.
Qed.

Lemma extends_for_each {S A} (xs : list A) (body : A -> skill S unit) :
  (forall x, extends (body x)) -> extends (for_each xs body).
Proof.
  intros Hbody. induction xs as [|x xs IH]; simpl.
  - apply extends_ret.
  - apply extends_bind; [apply Hbody|intros _; apply IH].
Qed.

Lemma extends_watch_loop {S} (client : Client S) (fuel : nat)
    (instanceid state new_state : string) (check_count : nat) :
  extends (watch_loop client fuel instanceid state new_state check_count).
Proof.
  revert new_state check_count.
  induction fuel as [|fuel IH]; intros new_state check_count;
    cbn [watch_loop];
    destruct (String.eqb state new_state || Nat.ltb 60 check_count);
    try apply extends_ret.
  - intros w. exists []. simpl. now rewrite app_nil_r.
  - apply extends_bind; [apply extends_provider|]. intros statuses.
    apply extends_bind.
    + destruct statuses as [|status rest]; [apply extends_ret|].
      apply extends_bind; [|intros _; apply extends_ret].
      destruct (negb (String.eqb status state));
        [apply extends_emit|apply extends_ret].
    + intros current. apply extends_bind; [apply extends_emit|].
      intros _. apply IH.
Qed.

(** ** Running provider calls and replies *)

Lemma bind_provider_ok {S A B} (c : call) (op : reply S A) (k : A -> skill S B)
    (w : world S) (a : A) (s' : S) :
  op (client_state w) = (inr a, s') ->
  bind (provider c op) k w = k a (World s' (trace w ++ [Call c])).
Proof. intros H. unfold bind, provider. now rewrite H. Qed.

Lemma bind_provider_raises {S A B} (c : call) (op : reply S A)
    (k : A -> skill S B) (w : world S) (e : string) (s' : S) :
  op (client_state w) = (inl e, s') ->
  bind (provider c op) k w = (Raised e, World s' (trace w ++ [Call c])).
Proof. intros H. unfold bind, provider. now rewrite H. Qed.

Lemma bind_respond {S B} (text : string) (k : unit -> skill S B) (w : world S) :
  bind (respond text) k w
  = k tt (World (client_state w) (trace w ++ [Respond text])).
Proof. reflexivity. Qed.

Lemma bind_ret {S A B} (a : A) (k : A -> skill S B) (w : world S) :
  bind (ret a) k w = k a w.
Proof. reflexivity. Qed.

Lemma try_except_run {S A} (body : skill S A) (handler : string -> skill S A)
    (w : world S) :
  try_except body handler w
  = match body w with
    | (Raised e, w') => handler e w'
    | r => r
    end.
Proof. reflexivity. Qed.

(** ** Skills that add no provider call but status polls *)

Lemma adds_only_ret {S A} (P : event -> Prop) (a : A) : adds_only P (@ret S A a).
Proof. intros w. exists []. simpl. now rewrite app_nil_r. Qed.

Lemma adds_only_emit {S} (P : event -> Prop) (ev : event) :
  P ev -> adds_only P (@emit S ev).
Proof. intros Hev w. exists [ev]. split; [reflexivity|]. now constructor. Qed.

Lemma adds_only_provider {S A} (P : event -> Prop) (c : call) (op : reply S A) :
  P (Call c) -> adds_only P (provider c op).
Proof.
  intros Hc w. exists [Call c]. unfold provider.
  destruct (op (client_state w)) as [[e|a] s']; (split; [reflexivity|]);
    now constructor.
Qed.

Lemma adds_only_bind {S A B} (P : event -> Prop) (m : skill S A)
    (k : A -> skill S B) :
  adds_only P m -> (forall a, adds_only P (k a)) -> adds_only P (bind m k).
Proof.
  intros Hm Hk w. unfold bind. destruct (Hm w) as (added & Hadded & HP).
  destruct (m w) as [[a|e|] w1]; simpl in *; [|now exists added..].
  destruct (Hk a w1) as (added' & Hadded' & HP').
  exists (added ++ added'). split.
  - now rewrite Hadded', Hadded, app_assoc.
  - now apply Forall_app.
Qed.

Lemma adds_only_try_except {S A} (P : event -> Prop) (body : skill S A)
    (handler : string -> skill S A) :
  adds_only P body -> (forall e, adds_only P (handler e)) ->
  adds_only P (try_except body handler).
Proof.
  intros Hb Hh w. unfold try_except. destruct (Hb w) as (added & Hadded & HP).
  destruct (body w) as [[a|e|] w1]; simpl in *;
    [now exists added| |now exists added].
  destruct (Hh e w1) as (added' & Hadded' & HP').
  exists (added ++ added'). split.
  - now rewrite Hadded', Hadded, app_assoc.
  - now apply Forall_app.
Qed.

Lemma adds_only_for_each {S A} (P : event -> Prop) (xs : list A)
    (body : A -> skill S unit) :
  (forall x, adds_only P (body x)) -> adds_only P (for_each xs body).
Proof.
  intros Hbody. induction xs as [|x xs IH]; simpl.
  - apply adds_only_ret.
  - apply adds_only_bind; [apply Hbody|intros _; apply IH].
Qed.

Lemma adds_only_watch_loop {S} (client : Client S) (fuel : nat)
    (instanceid state new_state : string) (check_count : nat) :
  adds_only poll_or_silent
    (watch_loop client fuel instanceid state new_state check_count).
Proof.
  revert new_state check_count.
  induction fuel as [|fuel IH]; intros new_state check_count;
    cbn [watch_loop];
    destruct (String.eqb state new_state || Nat.ltb 60 check_count);
    try apply adds_only_ret.
  - intros w. exists []. simpl. now rewrite app_nil_r.
  - apply adds_only_bind; [now apply adds_only_provider|]. intros statuses.
    apply adds_only_bind.
    + destruct statuses as [|status rest]; [apply adds_only_ret|].
      apply adds_only_bind; [|intros _; apply adds_only_ret].
      destruct (negb (String.eqb status state));
        [now apply adds_only_emit|apply adds_only_ret].
    + intros current. apply adds_only_bind; [now apply adds_only_emit|].
      intros _. apply IH.
Qed.

Lemma adds_only_announce_and_watch {S} (client : Client S) (fuel : nat)
    (sc : state_change) :
  adds_only poll_or_silent (announce_and_watch client fuel sc).
Proof.
  apply adds_only_bind; [now apply adds_only_emit|].
  intros _. apply adds_only_watch_loop.
Qed.

Lemma poll_or_silent_no_start (added : list event) :
  Forall poll_or_silent added ->
  List.filter is_start_call (calls added) = []
  /\ List.filter is_mutation (calls added) = [].
Proof.
  induction 1 as [|ev added Hev _ [IH1 IH2]]; [now split|].
  destruct ev as [c| |]; simpl; try now split.
  destruct c; simpl in *; try discriminate. now split.
Qed.

(** ** The ad-hoc start action *)

(** C4, as amended.  [aws_start_server] calls [start_instances] for the
    instance outside the error handler and, exactly when that call
    returns, a second time with the same instance inside it; it makes no
    other start call and no other call that changes the provider.  So a
    run makes one start call when the first raises and two when it
    returns.  A client error of the first call leaves the skill uncaught
    and no message is sent; a client error of the second call is caught
    and sent as a message; when both return, the skill goes on, inside
    the handler, with the message and the watch of each entry of
    [StartingInstances], which add nothing to the trace but messages,
    sleeps and status polls. *)
Theorem aws_start_server_first_call_unguarded {S : Type} (client : Client S)
    (fuel : nat) (instanceid : string) (w : world S) :
  match start_instances client [instanceid] (client_state w) with
  | (inl e, s1) =>
      aws_start_server client fuel instanceid w
      = (Raised e, World s1 (trace w ++ [Call (StartInstances [instanceid])]))
  | (inr _, s1) =>
      match start_instances client [instanceid] s1 with
      | (inl e, s2) =>
          aws_start_server client fuel instanceid w
          = (Done tt,
             World s2 (trace w ++ [ Call (StartInstances [instanceid]);
                                    Call (StartInstances [instanceid]);
                                    Respond e ]))
      | (inr StartingInstances, s2) =>
          aws_start_server client fuel instanceid w
          = try_except
              (for_each StartingInstances (announce_and_watch client fuel))
              (fun e => respond e)
              (World s2 (trace w ++ [ Call (StartInstances [instanceid]);
                                      Call (StartInstances [instanceid]) ]))
          /\ exists added,
               trace (snd (aws_start_server client fuel instanceid w))
               = trace w ++ [ Call (StartInstances [instanceid]);
                              Call (StartInstances [instanceid]) ] ++ added
               /\ Forall poll_or_silent added
               /\ List.filter is_start_call (calls added) = []
               /\ List.filter is_mutation (calls added) = []
      end
  end.
Proof.
  unfold aws_start_server.
  destruct (start_instances client [instanceid] (client_state w))
    as [[e|r1] s1] eqn:Hfirst.
  { now rewrite (bind_provider_raises _ _ _ _ _ _ Hfirst). }
  rewrite (bind_provider_ok _ _ _ _ _ _ Hfirst), !try_except_run.
  destruct (start_instances client [instanceid] s1) as [[e|r2] s2] eqn:Hsecond.
  { rewrite (bind_provider_raises _ _ _ _ e s2) by exact Hsecond.
    unfold respond, emit. simpl. now rewrite <- !app_assoc. }
  rewrite (bind_provider_ok _ _ _ _ r2 s2) by exact Hsecond.
  cbn [client_state trace]. rewrite <- app_assoc.
  change ([Call (StartInstances [instanceid])]
            ++ [Call (StartInstances [instanceid])])
    with [Call (StartInstances [instanceid]); Call (StartInstances [instanceid])].
  split; [reflexivity|].
  destruct (adds_only_try_except poll_or_silent
              (for_each r2 (announce_and_watch client fuel))
              (fun e => respond e)) with
    (w := World s2 (trace w ++ [ Call (StartInstances [instanceid]);
                                 Call (StartInstances [instanceid]) ]))
    as (added & Hadded & Hsilent).
  - apply adds_only_for_each. intros sc. apply adds_only_announce_and_watch.
  - intros e. now apply adds_only_emit.
  - exists added.
    split; [|split; [exact Hsilent|now apply poll_or_silent_no_start]].
    cbn [trace] in Hadded. rewrite <- app_assoc in Hadded. exact Hadded.
Qed.

(** C4, as stated, fails on the code: when the provider rejects the first
    start call, the run makes that one start call only, and ends with the
    error uncaught. *)
Lemma aws_start_server_rejected_calls_once :
  fst (aws_start_server (scripted start_rejected) 0 "i-9" start)
  = Raised "ClientError: start refused"
  /\ List.filter is_start_call
       (calls (trace (snd (aws_start_server (scripted start_rejected) 0
                             "i-9" start))))
     = [StartInstances ["i-9"]].
Proof. split; reflexivity. Qed.

(** A provider that rejects the start call: the error escapes the skill. *)
Example aws_start_server_rejected :
  aws_start_server (scripted start_rejected) 0 "i-9" start
  = (Raised "ClientError: start refused",
     World 1 [Call (StartInstances ["i-9"])]).
Proof. reflexivity. Qed.

Lemma bind_assoc {S A B C} (m : skill S A) (f : A -> skill S B)
    (k : B -> skill S C) (w : world S) :
  bind (bind m f) k w = bind m (fun a => bind (f a) k) w.
Proof. unfold bind. now destruct (m w) as [[a|e|] w']. Qed.

(** ** The scheduled stop action *)

Lemma aws_stop_dev_selected {S : Type} (client : Client S) (rnd : nat)
    (w : world S) (snapshot : list reservation) (s1 : S) :
  describe_instances client None (client_state w) = (inr snapshot, s1) ->
  aws_stop_dev client rnd w
  = (let instances := office_hours_instances snapshot false in
     if Nat.ltb 0 (length instances) then
       respond ("Shutting down " +:+ str_nat (length instances)
                  +:+ " dev instances") ;;;
       try_except
         (provider (StopInstances instances) (stop_instances client instances) ;;;
          provider (CreateTags instances [stopped_tag])
                   (create_tags client instances [stopped_tag]))
         (fun e => respond e)
     else respond "I couldn't find any instances to shut down")
      (World s1 (trace w ++ [ Respond (random_choice rnd byes);
                              Call (DescribeInstances None) ])).
Proof.
  intros Hdescribe. unfold aws_stop_dev, get_office_hours_instances.
  rewrite bind_respond, bind_assoc.
  rewrite (bind_provider_ok _ _ _ _ snapshot s1) by exact Hdescribe.
  rewrite bind_ret. cbn [trace client_state]. now rewrite <- app_assoc.
Qed.

(** C7.  When the bulk stop call of the scheduled stop action raises a
    client error, the text of the error is sent as a message and the skill
    ends: [create_tags] is not called. *)
Theorem aws_stop_dev_stop_error_reported {S : Type} (client : Client S)
    (rnd : nat) (w : world S) (snapshot : list reservation) (s1 s2 : S)
    (e : string) :
  describe_instances client None (client_state w) = (inr snapshot, s1) ->
  office_hours_instances snapshot false <> [] ->
  stop_instances client (office_hours_instances snapshot false) s1
    = (inl e, s2) ->
  let instances := office_hours_instances snapshot false in
  let added :=
    [ Respond (random_choice rnd byes);
      Call (DescribeInstances None);
      Respond ("Shutting down " +:+ str_nat (length instances)
                 +:+ " dev instances");
      Call (StopInstances instances);
      Respond e ] in
  aws_stop_dev client rnd w = (Done tt, World s2 (trace w ++ added))
  /\ List.filter is_create_tags (calls added) = [].
Proof.
  intros Hdescribe Hsome Hstop instances added. split; [|reflexivity].
  rewrite (aws_stop_dev_selected _ _ _ _ _ Hdescribe). cbv zeta.
  subst instances added.
  assert (Nat.ltb 0 (length (office_hours_instances snapshot false)) = true)
    as -> by (destruct (office_hours_instances snapshot false); done).
  rewrite bind_respond, try_except_run.
  rewrite (bind_provider_raises _ _ _ _ e s2) by exact Hstop.
  unfold respond, emit. simpl. now rewrite <- !app_assoc.
Qed.

Lemma aws_stop_dev_stop_error_witness :
  aws_stop_dev (scripted stop_rejected) 0 start
  = (Done tt,
     World 2 [ Respond "Right, I'm done for the day. Shutting down and going home, Bye!";
               Call (DescribeInstances None);
               Respond "Shutting down 2 dev instances";
               Call (StopInstances ["i-1"; "i-5"]);
               Respond "ClientError: stop refused" ]).
Proof.
  refine (proj1 (aws_stop_dev_stop_error_reported (scripted stop_rejected)
                   0 start sample_snapshot 1 2 "ClientError: stop refused"
                   eq_refl _ eq_refl)).
  discriminate.
Defined.

(** C8.  When the selection is empty, the scheduled stop action sends the
    message that no instance was found and makes no mutating provider
    call: the only call of the run is [describe_instances]. *)
Theorem aws_stop_dev_none_found {S : Type} (client : Client S) (rnd : nat)
    (w : world S) (snapshot : list reservation) (s1 : S) :
  describe_instances client None (client_state w) = (inr snapshot, s1) ->
  office_hours_instances snapshot false = [] ->
  let added :=
    [ Respond (random_choice rnd byes);
      Call (DescribeInstances None);
      Respond "I couldn't find any instances to shut down" ] in
  aws_stop_dev client rnd w = (Done tt, World s1 (trace w ++ added))
  /\ List.filter is_mutation (calls added) = [].
Proof.
  intros Hdescribe Hnone added. split; [|reflexivity].
  rewrite (aws_stop_dev_selected _ _ _ _ _ Hdescribe). cbv zeta.
  rewrite Hnone. unfold respond, emit, added. simpl.
  now rewrite <- !app_assoc.
Qed.

Lemma aws_stop_dev_none_found_witness :
  aws_stop_dev (scripted nothing_to_stop) 1 start
  = (Done tt,
     World 1 [ Respond "Ok I'm off. Shutting down the dev stacks. See ya!";
               Call (DescribeInstances None);
               Respond "I couldn't find any instances to shut down" ]).
Proof.
  exact (proj1 (aws_stop_dev_none_found (scripted nothing_to_stop) 1 start
                  _ 1 eq_refl eq_refl)).
Defined.

(** ** The ad-hoc query actions *)

(** C2 (the code departs from it).  The number that [aws_count_servers]
    reports is the number of reservations of the reply, whatever the
    number of instances they hold. *)
Theorem aws_count_servers_counts_reservations {S : Type} (client : Client S)
    (status : string) (w : world S) (snapshot : list reservation) (s1 : S) :
  describe_instances client (Some ("instance-state-name", [status]))
                     (client_state w) = (inr snapshot, s1) ->
  aws_count_servers client status w
  = (Done tt,
     World s1
       (trace w ++
          [ Call (DescribeInstances (Some ("instance-state-name", [status])));
            Respond ("There are " +:+ str_nat (length snapshot)
                       +:+ " servers " +:+ status) ])).
Proof.
  intros Hdescribe. unfold aws_count_servers.
  rewrite (bind_provider_ok _ _ _ _ snapshot s1) by exact Hdescribe.
  unfold respond, emit. simpl. now rewrite <- !app_assoc.
Qed.

(** One reservation holding two running instances is reported as one
    server. *)
Lemma aws_count_servers_witness :
  length (all_instances one_reservation_two_instances) = 2
  /\ aws_count_servers (scripted (quiet one_reservation_two_instances
                                        (fun _ => [])))
                       "running" start
     = (Done tt,
        World 1
          [ Call (DescribeInstances
                    (Some ("instance-state-name", ["running"])));
            Respond "There are 1 servers running" ]).
Proof.
  split; [reflexivity|].
  exact (aws_count_servers_counts_reservations
           (scripted (quiet one_reservation_two_instances (fun _ => [])))
           "running" start one_reservation_two_instances 1 eq_refl).
Defined.

Lemma find_head_filter {A} (p : A -> bool) (l : list A) :
  List.find p l = head (List.filter p l).
Proof.
  induction l as [|x l IH]; simpl; [reflexivity|]. now destruct (p x).
Qed.

Lemma table_rows_inner (now : Z) (l : list instance) (rows : list (list string)) :
  foldl (fun rows i => rows ++ [table_row now i]) rows l
  = rows ++ (table_row now <$> l).
Proof.
  revert rows. induction l as [|i l IH]; intros rows; simpl.
  - now rewrite app_nil_r.
  - now rewrite IH, <- app_assoc.
Qed.

Lemma table_rows_outer (now : Z) (rs : list reservation)
    (rows : list (list string)) :
  foldl (fun rows r =>
           foldl (fun rows i => rows ++ [table_row now i]) rows (Instances r))
        rows rs
  = rows ++ (table_row now <$> all_instances rs).
Proof.
  revert rows. induction rs as [|r rs IH]; intros rows; simpl.
  - now rewrite app_nil_r.
  - rewrite IH, table_rows_inner, all_instances_cons, fmap_app.
    now rewrite app_assoc.
Qed.

Lemma display_name_at_most_one (i : instance) :
  display_name i
  = if Nat.leb (name_tags i) 1 then first_name_tag i else EmptyString.
Proof.
  unfold display_name, name_tags, first_name_tag.
  destruct (Tags i) as [tags|]; [|reflexivity].
  rewrite find_head_filter, length_fmap.
  now destruct (List.filter (fun x => String.eqb (Key x) "Name") tags)
    as [|x [|y l]].
Qed.

(** C9, as amended.  The table has one row per instance of the reply, in
    order, and the name shown for an instance is the value of its first
    tag with key [Name], or the empty string when it has no such tag,
    provided that at most one of its tags has the key [Name]; with two or
    more such tags the name shown is empty. *)
Theorem list_servers_display_name (now : Z) (snapshot : list reservation) :
  hd EmptyString <$> table_rows now snapshot
  = (fun i => if Nat.leb (name_tags i) 1 then first_name_tag i else EmptyString)
      <$> all_instances snapshot.
Proof.
  unfold table_rows. rewrite table_rows_outer. simpl.
  rewrite <- list_fmap_compose. apply list_fmap_ext.
  intros _ i _. simpl. apply display_name_at_most_one.
Qed.

(** C9, as stated, fails on the code: an instance with two [Name] tags is
    shown with an empty name, not with the value of the first of them. *)
Lemma two_names_display_name_empty :
  hd EmptyString <$> table_rows 0 [Reservation [two_names]] = [EmptyString]
  /\ first_name_tag two_names = "web"
  /\ hd EmptyString <$> table_rows 0 [Reservation [two_names]]
     <> first_name_tag <$> all_instances [Reservation [two_names]].
Proof. split; [reflexivity|]. split; [reflexivity|discriminate]. Qed.

(** * Further properties *)

(** ** The tag dictionary, continued *)

Lemma clean_tags_lookup_filter (l : list tag) (k : string) :
  clean_tags l !! k
  = Value <$> last (List.filter (fun t => String.eqb (Key t) k) l).
Proof.
  induction l as [|t l IH] using rev_ind; [reflexivity|].
  rewrite clean_tags_snoc, List.filter_app. simpl.
  destruct (String.eqb_spec (Key t) k) as [<-|Hne].
  - now rewrite lookup_insert_eq, last_snoc.
  - now rewrite lookup_insert_ne, app_nil_r.
Qed.

(** X1.  The dictionary built by [clean_tags] maps a key to the value of
    the last tag of the list that has this key, and to nothing when no
    tag has it. *)
Theorem clean_tags_last_value (array_of_tags : list tag) (k : string) :
  clean_tags array_of_tags !! k
  = Value <$> last (List.filter (fun t => String.eqb (Key t) k) array_of_tags).
Proof.
  induction array_of_tags as [|t l IH] using rev_ind; [reflexivity|].
  rewrite clean_tags_snoc, List.filter_app. simpl.
  destruct (String.eqb_spec (Key t) k) as [<-|Hne].
  - now rewrite lookup_insert_eq, last_snoc.
  - now rewrite lookup_insert_ne, app_nil_r.
Qed.

(** X2.  The keys of the dictionary are exactly the keys that occur in
    the tag list. *)
Theorem clean_tags_keys (array_of_tags : list tag) (k : string) :
  is_Some (clean_tags array_of_tags !! k) <-> k ∈ Key <$> array_of_tags.
Proof.
  induction array_of_tags as [|t l IH] using rev_ind.
  - change (clean_tags []) with (∅ : gmap string string).
    rewrite lookup_empty. split; [intros [? ?]; discriminate|].
    intros H. inversion H.
  - rewrite clean_tags_snoc, fmap_app, elem_of_app, lookup_insert_is_Some, IH.
    simpl. rewrite list_elem_of_singleton.
    destruct (decide (Key t = k)) as [->|Hne]; [tauto|].
    split; [intros [?|[_ ?]]; [done|now left] | intros [?|?]; [now right|]].
    congruence.
Qed.

(** ** The selector, continued *)

(** X3.  [get_office_hours_instances] returns the identifiers of the
    instances that pass its tests, in the order of the snapshot: the
    result is a sub-sequence of the snapshot's identifiers and, when no
    identifier repeats in the snapshot, none repeats in the result. *)
Theorem office_hours_instances_in_snapshot_order (rs : list reservation)
    (only_stopped : bool) :
  office_hours_instances rs only_stopped
  = InstanceId <$> List.filter (eligible only_stopped) (all_instances rs)
  /\ office_hours_instances rs only_stopped
       `sublist_of` (InstanceId <$> all_instances rs)
  /\ (NoDup (InstanceId <$> all_instances rs) ->
      NoDup (office_hours_instances rs only_stopped)).
Proof.
  rewrite office_hours_instances_select. unfold select.
  assert (InstanceId <$> List.filter (eligible only_stopped) (all_instances rs)
          `sublist_of` (InstanceId <$> all_instances rs)) as Hsub
    by apply fmap_sublist, filter_sublist.
  split; [reflexivity|]. split; [exact Hsub|].
  intros Hnd. now apply (sublist_NoDup _ _ Hnd).
Qed.

Lemma office_hours_instances_order_witness :
  office_hours_instances sample_snapshot false = ["i-1"; "i-5"]
  /\ NoDup (office_hours_instances sample_snapshot false).
Proof.
  destruct (office_hours_instances_in_snapshot_order sample_snapshot false)
    as (Heq & _ & Hnd).
  split; [exact (eq_trans Heq eq_refl)|].
  apply Hnd. apply (bool_decide_unpack _). vm_compute. exact I.
Defined.

(** X4.  In a snapshot whose identifiers do not repeat, the identifier of
    an instance is returned exactly when the instance is outside every
    autoscaling group, is not a spot instance, is not opted out by
    [OfficeHours] and, under [only_stopped], carries
    [StoppedByOfficeHours]. *)
Theorem office_hours_instances_member (rs : list reservation)
    (only_stopped : bool) (i : instance) :
  NoDup (InstanceId <$> all_instances rs) ->
  i ∈ all_instances rs ->
  (InstanceId i ∈ office_hours_instances rs only_stopped
   <-> in_autoscaling_group i = false /\ is_spot i = false
       /\ opted_out i = false
       /\ (only_stopped = true -> stopped_by_office_hours i = true)).
Proof.
  intros Hnd Hi.
  assert (eligible only_stopped i = true
          <-> in_autoscaling_group i = false /\ is_spot i = false
              /\ opted_out i = false
              /\ (only_stopped = true -> stopped_by_office_hours i = true))
    as <-.
  { unfold eligible, OfficeHoursPolicy.
    destruct (in_autoscaling_group i), (is_spot i), (opted_out i),
      only_stopped, (stopped_by_office_hours i); simpl; intuition congruence. }
  split.
  - intros Hin. destruct (eligible only_stopped i) eqn:He; [reflexivity|].
    now apply (not_selected_unique only_stopped rs i) in Hin.
  - intros He. rewrite office_hours_instances_select.
    apply elem_of_select. now exists i.
Qed.

Lemma office_hours_instances_member_witness :
  "i-5" ∈ office_hours_instances sample_snapshot true.
Proof.
  apply (office_hours_instances_member sample_snapshot true previously_stopped).
  - apply (bool_decide_unpack _). vm_compute. exact I.
  - unfold all_instances. simpl.
    repeat first [apply list_elem_of_here | apply list_elem_of_further].
  - repeat split; reflexivity.
Defined.

(** X5.  The grouping of the instances into reservations does not
    matter: two snapshots with the same sequence of instances give the
    same result, and the result for reservations put one after the other
    is the two results put one after the other. *)
Theorem office_hours_instances_regroup (rs rs' : list reservation)
    (only_stopped : bool) :
  office_hours_instances (rs ++ rs') only_stopped
  = office_hours_instances rs only_stopped
      ++ office_hours_instances rs' only_stopped
  /\ (all_instances rs = all_instances rs' ->
      office_hours_instances rs only_stopped
      = office_hours_instances rs' only_stopped).
Proof.
  rewrite !office_hours_instances_select, all_instances_app, select_app.
  split; [reflexivity|]. now intros ->.
Qed.

Lemma office_hours_instances_regroup_witness :
  office_hours_instances sample_snapshot true
  = office_hours_instances sample_snapshot_regrouped true.
Proof.
  exact (proj2 (office_hours_instances_regroup sample_snapshot
                  sample_snapshot_regrouped true) eq_refl).
Defined.

(** ** Creating the client *)

(** X6.  [aws_get_client] hands the region of the configuration to boto
    whenever there is one.  It hands over the key pair only when both keys
    and the region are configured, and then both keys as configured: a key
    pair configured without a region is left out. *)
Theorem aws_get_client_arguments (service : string)
    (config : gmap string string) :
  let args := aws_get_client service config in
  arg_service args = service
  /\ arg_region_name args = config !! "region_name"
  /\ (is_Some (arg_aws_access_key_id args)
      <-> is_Some (config !! "aws_access_key_id")
          /\ is_Some (config !! "aws_secret_access_key")
          /\ is_Some (config !! "region_name"))
  /\ (is_Some (arg_aws_secret_access_key args)
      <-> is_Some (arg_aws_access_key_id args))
  /\ (is_Some (arg_aws_access_key_id args) ->
      arg_aws_access_key_id args = config !! "aws_access_key_id"
      /\ arg_aws_secret_access_key args = config !! "aws_secret_access_key").
Proof.
  unfold aws_get_client, key_in.
  destruct (config !! "aws_access_key_id") as [key|],
    (config !! "aws_secret_access_key") as [secret|],
    (config !! "region_name") as [region|]; simpl;
    repeat split; try reflexivity; try (intros [? ?]; discriminate);
    try (intros (? & ? & ?)); eauto;
    try match goal with H : is_Some None |- _ => now destruct H end.
Qed.

Lemma aws_get_client_witness :
  arg_aws_access_key_id (aws_get_client "ec2" full_config) = Some "AKIA"
  /\ arg_aws_secret_access_key (aws_get_client "ec2" full_config)
     = Some "secret"
  /\ ~ is_Some (arg_aws_access_key_id (aws_get_client "ec2" keys_only_config)).
Proof.
  destruct (aws_get_client_arguments "ec2" full_config)
    as (_ & _ & Hiff & _ & Hkeys).
  destruct (aws_get_client_arguments "ec2" keys_only_config)
    as (_ & _ & Hiff' & _).
  assert (is_Some (arg_aws_access_key_id (aws_get_client "ec2" full_config)))
    as Hsome by (apply Hiff; repeat split; vm_compute; eauto).
  destruct (Hkeys Hsome) as [Hkey Hsecret].
  split; [exact (eq_trans Hkey eq_refl)|].
  split; [exact (eq_trans Hsecret eq_refl)|].
  intros Habs. apply Hiff' in Habs as (_ & _ & [region Hregion]).
  vm_compute in Hregion. discriminate.
Defined.

(** ** The list action, continued *)

(** X7.  For an instance with exactly one [Name] tag, the name shown by
    the list action is the value that the tag dictionary of the selector
    holds for [Name]. *)
Theorem display_name_agrees_with_tags (i : instance) :
  name_tags i = 1 -> tags_of i !! "Name" = Some (display_name i).
Proof.
  unfold name_tags, tags_of, display_name.
  destruct (Tags i) as [tags|]; [|discriminate].
  rewrite clean_tags_lookup_filter, length_fmap. intros Hone. rewrite Hone.
  destruct (List.filter (fun t => String.eqb (Key t) "Name") tags)
    as [|x [|y l]]; try discriminate.
  reflexivity.
Qed.

Lemma display_name_agrees_witness :
  tags_of named !! "Name" = Some "web".
Proof. exact (display_name_agrees_with_tags named eq_refl). Defined.

Lemma str_Z_positive_not_less_than_sign (d : Z) (rest : string) :
  (1 <= d)%Z -> str_Z d +:+ "d" <> String "<" rest.
Proof.
  intros Hd. destruct d as [|p|p]; try lia.
  unfold str_Z. simpl. unfold NilZero.string_of_uint.
  destruct (Pos.to_uint p); simpl; discriminate.
Qed.

(** X8.  The uptime column shows ["<1d"] exactly when less than 86400
    seconds lie between the launch time and now (also for a launch time in
    the future), and otherwise the number of whole days followed by
    ["d"]. *)
Theorem display_uptime_buckets (now : Z) (i : instance) :
  (display_uptime now i = "<1d" <-> (now - LaunchTime i < 86400)%Z)
  /\ ((86400 <= now - LaunchTime i)%Z ->
      display_uptime now i
      = str_Z ((now - LaunchTime i) / 86400) +:+ "d"
      /\ (1 <= (now - LaunchTime i) / 86400)%Z).
Proof.
  unfold display_uptime.
  destruct (Z.ltb_spec ((now - LaunchTime i) / 86400) 1) as [Hlt|Hge].
  - assert (now - LaunchTime i < 86400)%Z as Hsmall.
    { destruct (Z.lt_ge_cases (now - LaunchTime i) 86400) as [|Hbig]; [done|].
      apply (Z.div_le_mono _ _ 86400) in Hbig; [|lia].
      change (86400 / 86400)%Z with 1%Z in Hbig. lia. }
    split; [tauto|]. lia.
  - assert (86400 <= now - LaunchTime i)%Z as Hbig.
    { destruct (Z.lt_ge_cases (now - LaunchTime i) 86400) as [Hsmall|]; [|done].
      apply (Z.div_lt_upper_bound _ 86400 1) in Hsmall; lia. }
    split; [|now intros _].
    split; [|lia]. intros Heq.
    now apply str_Z_positive_not_less_than_sign in Heq.
Qed.

Lemma display_uptime_witness :
  display_uptime 200000 named = "2d".
Proof.
  exact (proj1 (proj2 (display_uptime_buckets 200000 named) ltac:(simpl; lia))).
Defined.

(** ** The state watcher, continued *)

Section WatcherRuns.
Context {S : Type} (client : Client S).

(** One iteration of the loop whose poll raises a client error. *)
Lemma watch_loop_raises (fuel : nat) (instanceid state new_state : string)
    (check_count : nat) (w : world S) (e : string) (s' : S) :
  String.eqb state new_state || Nat.ltb 60 check_count = true ->
  describe_instance_status client [instanceid] (client_state w) = (inl e, s') ->
  watch_loop client (Datatypes.S fuel) instanceid state new_state check_count w
  = (Raised e, World s' (trace w ++ failed_poll instanceid)).
Proof.
  intros Hcond Hpoll. cbn [watch_loop]. rewrite Hcond.
  now rewrite (bind_provider_raises _ _ _ _ e s') by exact Hpoll.
Qed.

Lemma watch_loop_shape (fuel : nat) (instanceid state new_state : string)
    (check_count : nat) (w : world S) :
  exists blocks last_poll,
    trace (snd (watch_loop client fuel instanceid state new_state
                           check_count w))
    = trace w ++ concat blocks ++ last_poll
    /\ Forall (watch_block instanceid state) blocks
    /\ last_poll
       = match fst (watch_loop client fuel instanceid state new_state
                               check_count w) with
         | Raised _ => failed_poll instanceid
         | _ => []
         end.
Proof.
  revert new_state check_count w.
  induction fuel as [|fuel IH]; intros new_state check_count w;
    destruct (String.eqb state new_state || Nat.ltb 60 check_count) eqn:Hcond;
    try (rewrite watch_loop_exit by done; exists [], [];
         simpl; now rewrite app_nil_r).
  { rewrite watch_loop_out_of_fuel by done. exists [], [].
    simpl. now rewrite app_nil_r. }
  destruct (describe_instance_status client [instanceid] (client_state w))
    as [[e|statuses] s'] eqn:Hpoll.
  { rewrite (watch_loop_raises _ _ _ _ _ _ e s') by done.
    exists [], (failed_poll instanceid). now simpl. }
  rewrite (watch_loop_step _ _ _ _ _ _ _ statuses s') by done.
  assert (forall current block,
             watch_block instanceid state block ->
             exists blocks last_poll,
               trace (snd (watch_loop client fuel instanceid state current
                             (check_count + 1)
                             (World s' (trace w ++ block))))
               = trace w ++ concat blocks ++ last_poll
               /\ Forall (watch_block instanceid state) blocks
               /\ last_poll
                  = match fst (watch_loop client fuel instanceid state current
                                 (check_count + 1)
                                 (World s' (trace w ++ block))) with
                    | Raised _ => failed_poll instanceid
                    | _ => []
                    end) as Hnext.
  { intros current block Hblock.
    destruct (IH current (check_count + 1) (World s' (trace w ++ block)))
      as (blocks & last_poll & Htrace & Hblocks & Hlast).
    exists (block :: blocks), last_poll. split; [|split; [|exact Hlast]].
    - rewrite Htrace. simpl. now rewrite <- !app_assoc.
    - now constructor. }
  destruct statuses as [|status rest]; [apply Hnext; now left|].
  destruct (String.eqb_spec status state) as [->|Hne].
  - apply Hnext. now left.
  - apply Hnext. right. now exists status.
Qed.

(** Once [check_count] is above 60 the loop does not return. *)
Lemma watch_loop_over_budget (fuel : nat) (instanceid state new_state : string)
    (check_count : nat) (w : world S) :
  60 < check_count ->
  fst (watch_loop client fuel instanceid state new_state check_count w)
  <> Done tt.
Proof.
  revert new_state check_count w.
  induction fuel as [|fuel IH]; intros new_state check_count w Hover;
    assert (String.eqb state new_state || Nat.ltb 60 check_count = true)
      as Hcond by (apply orb_true_iff; right; now apply Nat.ltb_lt).
  - now rewrite watch_loop_out_of_fuel.
  - destruct (describe_instance_status client [instanceid] (client_state w))
      as [[e|statuses] s'] eqn:Hpoll.
    + now rewrite (watch_loop_raises _ _ _ _ _ _ e s').
    + rewrite (watch_loop_step _ _ _ _ _ _ _ statuses s') by done.
      destruct statuses; apply IH; lia.
Qed.

Lemma watch_loop_returns (fuel : nat) (instanceid state : string)
    (check_count : nat) (w w' : world S) :
  watch_loop client fuel instanceid state state check_count w = (Done tt, w') ->
  exists n new_state,
    check_count + n < 60
    /\ new_state <> state
    /\ trace w' = trace w ++ times n (idle_poll instanceid)
                          ++ notified_poll instanceid new_state.
Proof.
  revert check_count w.
  induction fuel as [|fuel IH]; intros check_count w Hrun;
    assert (String.eqb state state || Nat.ltb 60 check_count = true)
      as Hcond by now rewrite String.eqb_refl.
  { now rewrite watch_loop_out_of_fuel in Hrun. }
  destruct (describe_instance_status client [instanceid] (client_state w))
    as [[e|statuses] s'] eqn:Hpoll.
  { now rewrite (watch_loop_raises _ _ _ _ _ _ e s') in Hrun. }
  rewrite (watch_loop_step _ _ _ _ _ _ _ statuses s') in Hrun by done.
  assert (watch_loop client fuel instanceid state state (check_count + 1)
            (World s' (trace w ++ idle_poll instanceid)) = (Done tt, w') ->
          exists n new_state,
            check_count + n < 60 /\ new_state <> state
            /\ trace w' = trace w ++ times n (idle_poll instanceid)
                                  ++ notified_poll instanceid new_state)
    as Hidle.
  { intros Hrest. apply IH in Hrest as (n & new_state & Hn & Hne & Htrace).
    exists (Datatypes.S n), new_state. split; [lia|]. split; [done|].
    rewrite Htrace. simpl. now rewrite <- !app_assoc. }
  destruct statuses as [|status rest]; [now apply Hidle|].
  destruct (String.eqb_spec status state) as [->|Hne]; [now apply Hidle|].
  destruct (Nat.ltb_spec 60 (check_count + 1)) as [Hover|Hwithin].
  - exfalso.
    apply (watch_loop_over_budget fuel instanceid state status
             (check_count + 1)
             (World s' (trace w ++ notified_poll instanceid status)) Hover).
    now rewrite Hrun.
  - rewrite watch_loop_exit in Hrun.
    + injection Hrun as <-. exists 0, status. split; [lia|]. now split.
    + apply orb_false_iff. split; [|now apply Nat.ltb_ge].
      apply String.eqb_neq. congruence.
Qed.
End WatcherRuns.

(** X9.  Whatever the provider answers and however the run ends, the
    watcher only polls the status of its own instance, sleeps 5 seconds
    after every answered poll, and only ever notifies a state other than
    the reference state; a poll that raises a client error ends the watch
    with that error and nothing after the call. *)
Theorem watch_trace_shape {S : Type} (client : Client S) (fuel : nat)
    (instanceid state : string) (w : world S) :
  exists blocks last_poll,
    trace (snd (aws_watch_instance_state_until_change client fuel
                  instanceid state w))
    = trace w ++ concat blocks ++ last_poll
    /\ Forall (watch_block instanceid state) blocks
    /\ last_poll
       = match fst (aws_watch_instance_state_until_change client fuel
                      instanceid state w) with
         | Raised _ => failed_poll instanceid
         | _ => []
         end.
Proof.
  unfold aws_watch_instance_state_until_change. apply watch_loop_shape.
Qed.

(** X10.  Whenever the watcher returns, it has made at most 60 polls, the
    last of them is the only one that showed a state other than the
    reference state, and that state has been notified exactly once. *)
Theorem watch_returns_after_one_notification {S : Type} (client : Client S)
    (fuel : nat) (instanceid state : string) (w w' : world S) :
  aws_watch_instance_state_until_change client fuel instanceid state w
    = (Done tt, w') ->
  exists n new_state,
    n < 60
    /\ new_state <> state
    /\ trace w' = trace w ++ times n (idle_poll instanceid)
                          ++ notified_poll instanceid new_state.
Proof.
  unfold aws_watch_instance_state_until_change. intros Hrun.
  apply watch_loop_returns in Hrun as (n & new_state & Hn & Hne & Htrace).
  exists n, new_state. split; [lia|]. now split.
Qed.

Lemma watch_returns_witness :
  exists n new_state,
    n < 60 /\ new_state <> "stopped"
    /\ idle_poll "i-1" ++ idle_poll "i-1" ++ notified_poll "i-1" "running"
       = times n (idle_poll "i-1") ++ notified_poll "i-1" new_state.
Proof.
  exact (watch_returns_after_one_notification (scripted changes_at_third_poll)
           3 "i-1" "stopped" start
           (World 3 (idle_poll "i-1" ++ idle_poll "i-1"
                       ++ notified_poll "i-1" "running"))
           eq_refl).
Defined.

Lemma watch_loop_scripted_over_budget (snapshot : list reservation)
    (statuses : nat -> list string) (fuel : nat)
    (instanceid state new_state : string) (check_count : nat)
    (w : world nat) :
  60 <= check_count ->
  String.eqb state new_state || Nat.ltb 60 check_count = true ->
  fst (watch_loop (scripted (quiet snapshot statuses)) fuel instanceid state
                  new_state check_count w) = OutOfFuel.
Proof.
  revert new_state check_count w.
  induction fuel as [|fuel IH]; intros new_state check_count w Hcount Hcond.
  - now rewrite watch_loop_out_of_fuel.
  - rewrite (watch_loop_step _ _ _ _ _ _ _ (statuses (client_state w))
               (Datatypes.S (client_state w))) by done.
    assert (forall current,
               String.eqb state current || Nat.ltb 60 (check_count + 1) = true)
      as Hnext.
    { intros current. apply orb_true_iff. right. apply Nat.ltb_lt. lia. }
    destruct (statuses (client_state w)); apply IH; try lia; apply Hnext.
Qed.

(** X11.  With a provider that answers every poll: when none of the first
    60 polls shows a state other than the reference state, the watch never
    returns, whatever the later polls show. *)
Theorem watch_silent_for_60_polls_never_returns (snapshot : list reservation)
    (statuses : nat -> list string) (instanceid state : string) (fuel : nat) :
  (forall j, j < 60 -> shows_no_change state (statuses j)) ->
  fst (aws_watch_instance_state_until_change
         (scripted (quiet snapshot statuses)) fuel instanceid state start)
  = OutOfFuel.
Proof.
  intros Hsilent. unfold aws_watch_instance_state_until_change, start.
  destruct (Nat.le_gt_cases fuel 60) as [Hle|Hgt].
  - replace fuel with (fuel + 0) by lia. rewrite watch_loop_idle.
    + rewrite watch_loop_out_of_fuel; [reflexivity|].
      now rewrite String.eqb_refl.
    + intros j Hj. apply Hsilent. lia.
  - replace fuel with (60 + (fuel - 60)) by lia. rewrite watch_loop_idle.
    + apply watch_loop_scripted_over_budget; [lia|].
      now rewrite String.eqb_refl.
    + intros j Hj. now apply Hsilent.
Qed.

Lemma watch_silent_for_60_polls_witness :
  fst (aws_watch_instance_state_until_change (scripted changes_at_poll_61)
         500 "i-1" "stopped" start) = OutOfFuel.
Proof.
  apply (watch_silent_for_60_polls_never_returns [] _ "i-1" "stopped" 500).
  intros j Hj. apply Nat.ltb_lt in Hj. cbn beta. now rewrite Hj.
Defined.

(** ** The ad-hoc stop and start actions *)

Lemma for_each_respond {S A} (xs : list A) (text : A -> string) (w : world S) :
  for_each xs (fun x => respond (text x)) w
  = (Done tt,
     World (client_state w) (trace w ++ ((fun x => Respond (text x)) <$> xs))).
Proof.
  revert w. induction xs as [|x xs IH]; intros w; simpl.
  - unfold ret. rewrite app_nil_r. now destruct w.
  - rewrite bind_respond, IH. simpl. now rewrite <- app_assoc.
Qed.

(** X12.  [aws_stop_server] makes exactly one provider call, the stop call
    for the instance, and never lets a client error escape: it ends
    normally, having sent either the text of the error or one message per
    entry of [StoppingInstances], in order. *)
Theorem aws_stop_server_behaviour {S : Type} (client : Client S)
    (instanceid : string) (w : world S) :
  aws_stop_server client instanceid w
  = match stop_instances client [instanceid] (client_state w) with
    | (inl e, s') =>
        (Done tt,
         World s' (trace w ++ [Call (StopInstances [instanceid]); Respond e]))
    | (inr changes, s') =>
        (Done tt,
         World s' (trace w ++ Call (StopInstances [instanceid])
                     :: ((fun sc => Respond (changed_message sc)) <$> changes)))
    end.
Proof.
  unfold aws_stop_server. rewrite try_except_run.
  destruct (stop_instances client [instanceid] (client_state w))
    as [[e|changes] s'] eqn:Hstop.
  - rewrite (bind_provider_raises _ _ _ _ e s') by exact Hstop.
    unfold respond, emit. simpl. now rewrite <- app_assoc.
  - rewrite (bind_provider_ok _ _ _ _ changes s') by exact Hstop.
    rewrite for_each_respond. simpl. now rewrite <- app_assoc.
Qed.

Lemma watch_loop_raised_by_poll {S : Type} (client : Client S) (fuel : nat)
    (instanceid state new_state : string) (check_count : nat)
    (w w' : world S) (e : string) :
  watch_loop client fuel instanceid state new_state check_count w
    = (Raised e, w') ->
  exists s mid,
    describe_instance_status client [instanceid] s = (inl e, client_state w')
    /\ trace w' = trace w ++ mid ++ failed_poll instanceid.
Proof.
  revert new_state check_count w.
  induction fuel as [|fuel IH]; intros new_state check_count w Hrun;
    destruct (String.eqb state new_state || Nat.ltb 60 check_count) eqn:Hcond;
    try (rewrite watch_loop_exit in Hrun by done; discriminate).
  { rewrite watch_loop_out_of_fuel in Hrun by done. discriminate. }
  destruct (describe_instance_status client [instanceid] (client_state w))
    as [[e0|statuses] s'] eqn:Hpoll.
  { rewrite (watch_loop_raises _ _ _ _ _ _ _ e0 s') in Hrun by done.
    injection Hrun as -> <-. exists (client_state w), []. now split. }
  rewrite (watch_loop_step _ _ _ _ _ _ _ statuses s') in Hrun by done.
  assert (forall current block,
             watch_loop client fuel instanceid state current (check_count + 1)
               (World s' (trace w ++ block)) = (Raised e, w') ->
             exists s mid,
               describe_instance_status client [instanceid] s
                 = (inl e, client_state w')
               /\ trace w' = trace w ++ mid ++ failed_poll instanceid) as Hnext.
  { intros current block Hrest.
    apply IH in Hrest as (s & mid & Hpoll' & Htrace).
    exists s, (block ++ mid). split; [exact Hpoll'|].
    rewrite Htrace. simpl. now rewrite <- !app_assoc. }
  destruct statuses as [|status rest]; now apply Hnext in Hrun.
Qed.

Lemma for_each_watch_raised_by_poll {S : Type} (client : Client S)
    (fuel : nat) (changes : list state_change) (w w' : world S) (e : string) :
  for_each changes (announce_and_watch client fuel) w = (Raised e, w') ->
  exists sc s mid,
    sc ∈ changes
    /\ describe_instance_status client [ChangedInstanceId sc] s
       = (inl e, client_state w')
    /\ trace w' = trace w ++ mid ++ failed_poll (ChangedInstanceId sc).
Proof.
  revert w. induction changes as [|sc changes IH]; intros w Hrun;
    [discriminate|].
  cbn [for_each] in Hrun. unfold bind at 1 in Hrun.
  destruct (adds_only_announce_and_watch client fuel sc w)
    as (added & Hadded & _).
  destruct (announce_and_watch client fuel sc w) as [[[]|e0|] w1] eqn:Hone;
    [| |discriminate].
  - apply IH in Hrun as (sc' & s & mid & Hin & Hpoll & Htrace).
    exists sc', s, (added ++ mid). split; [now apply list_elem_of_further|].
    split; [exact Hpoll|]. rewrite Htrace. simpl in Hadded.
    now rewrite Hadded, <- !app_assoc.
  - injection Hrun as -> ->. unfold announce_and_watch in Hone.
    rewrite bind_respond in Hone.
    apply watch_loop_raised_by_poll in Hone as (s & mid & Hpoll & Htrace).
    exists sc, s, (Respond (changed_message sc) :: mid).
    split; [apply list_elem_of_here|]. split; [exact Hpoll|].
    rewrite Htrace. simpl. now rewrite <- !app_assoc.
Qed.

(** X13.  In [aws_start_server], once both start calls have returned, no
    client error escapes the skill.  The loop over [StartingInstances]
    can only be ended by an error when a status poll of one of its
    watches raises it, whichever poll of whichever entry that is; the
    text of the error is then sent as a message right after the failed
    poll and the skill ends normally, with no message and no watch for
    the entries that come later. *)
Theorem aws_start_server_poll_error_reported {S : Type} (client : Client S)
    (fuel : nat) (instanceid : string) (w : world S)
    (first_reply StartingInstances : list state_change) (s1 s2 : S) :
  start_instances client [instanceid] (client_state w) = (inr first_reply, s1) ->
  start_instances client [instanceid] s1 = (inr StartingInstances, s2) ->
  let started := [ Call (StartInstances [instanceid]);
                   Call (StartInstances [instanceid]) ] in
  (forall e, fst (aws_start_server client fuel instanceid w) <> Raised e)
  /\ forall e w',
       for_each StartingInstances (announce_and_watch client fuel)
                (World s2 (trace w ++ started)) = (Raised e, w') ->
       aws_start_server client fuel instanceid w
       = (Done tt, World (client_state w') (trace w' ++ [Respond e]))
       /\ exists sc s mid,
            sc ∈ StartingInstances
            /\ describe_instance_status client [ChangedInstanceId sc] s
               = (inl e, client_state w')
            /\ trace w'
               = trace w ++ started ++ mid
                   ++ [Call (DescribeInstanceStatus [ChangedInstanceId sc])].
Proof.
  intros Hfirst Hsecond started.
  assert (aws_start_server client fuel instanceid w
          = try_except
              (for_each StartingInstances (announce_and_watch client fuel))
              (fun e => respond e) (World s2 (trace w ++ started))) as Hrun.
  { unfold aws_start_server.
    rewrite (bind_provider_ok _ _ _ _ _ _ Hfirst), !try_except_run.
    rewrite (bind_provider_ok _ _ _ _ StartingInstances s2) by exact Hsecond.
    cbn [client_state trace]. now rewrite <- app_assoc. }
  rewrite Hrun, try_except_run. split.
  - intros e.
    destruct (for_each StartingInstances (announce_and_watch client fuel)
                (World s2 (trace w ++ started))) as [[[]|e0|] w1];
      discriminate.
  - intros e w' Hloop. rewrite Hloop. split; [reflexivity|].
    apply for_each_watch_raised_by_poll in Hloop
      as (sc & s & mid & Hin & Hpoll & Htrace).
    exists sc, s, mid. split; [exact Hin|]. split; [exact Hpoll|].
    rewrite Htrace. cbn [trace]. unfold failed_poll.
    now rewrite <- !app_assoc.
Qed.

Lemma aws_start_server_poll_error_witness :
  aws_start_server (scripted second_poll_rejected) 5 "i-9" start
  = (Done tt,
     World 4 [ Call (StartInstances ["i-9"]);
               Call (StartInstances ["i-9"]);
               Respond "Changed instance i-9 to pending";
               Call (DescribeInstanceStatus ["i-9"]);
               Sleep 5;
               Call (DescribeInstanceStatus ["i-9"]);
               Respond "ClientError: status refused" ]).
Proof.
  exact (proj1 (proj2 (aws_start_server_poll_error_reported
                         (scripted second_poll_rejected) 5 "i-9" start
                         _ _ 1 2 eq_refl eq_refl)
                  "ClientError: status refused"
                  (World 4 [ Call (StartInstances ["i-9"]);
                             Call (StartInstances ["i-9"]);
                             Respond "Changed instance i-9 to pending";
                             Call (DescribeInstanceStatus ["i-9"]);
                             Sleep 5;
                             Call (DescribeInstanceStatus ["i-9"]) ])
                  eq_refl)).
Defined.

(** ** The scheduled actions, continued *)

(** X14.  When the bulk stop call of the scheduled stop action succeeds,
    the tag [StoppedByOfficeHours=true] is written, in one call, to the
    very identifiers that were stopped.  A client error of the tag write
    is sent as a message, after the stop call has been made; on success no
    further message is sent. *)
Theorem aws_stop_dev_tags_what_it_stopped {S : Type} (client : Client S)
    (rnd : nat) (w : world S) (snapshot : list reservation)
    (changes : list state_change) (s1 s2 : S) :
  describe_instances client None (client_state w) = (inr snapshot, s1) ->
  office_hours_instances snapshot false <> [] ->
  stop_instances client (office_hours_instances snapshot false) s1
    = (inr changes, s2) ->
  let instances := office_hours_instances snapshot false in
  let tag_write := Call (CreateTags instances [Tag "StoppedByOfficeHours" "true"]) in
  aws_stop_dev client rnd w
  = match create_tags client instances [Tag "StoppedByOfficeHours" "true"] s2 with
    | (inl e, s3) =>
        (Done tt,
         World s3 (trace w ++ stop_dev_prefix rnd instances
                           ++ [tag_write; Respond e]))
    | (inr _, s3) =>
        (Done tt,
         World s3 (trace w ++ stop_dev_prefix rnd instances ++ [tag_write]))
    end.
Proof.
  intros Hdescribe Hsome Hstop instances tag_write.
  rewrite (aws_stop_dev_selected _ _ _ _ _ Hdescribe). cbv zeta.
  subst instances tag_write.
  assert (Nat.ltb 0 (length (office_hours_instances snapshot false)) = true)
    as -> by (destruct (office_hours_instances snapshot false); done).
  rewrite bind_respond, try_except_run.
  rewrite (bind_provider_ok _ _ _ _ changes s2) by exact Hstop.
  unfold provider, stopped_tag. cbn [client_state trace].
  destruct (create_tags client (office_hours_instances snapshot false)
              [Tag "StoppedByOfficeHours" "true"] s2) as [[e|[]] s3];
    unfold respond, emit, stop_dev_prefix; simpl; now rewrite <- !app_assoc.
Qed.

Lemma aws_stop_dev_tags_witness :
  aws_stop_dev (scripted tag_write_rejected) 0 start
  = (Done tt,
     World 3 (stop_dev_prefix 0 ["i-1"; "i-5"]
                ++ [ Call (CreateTags ["i-1"; "i-5"]
                             [Tag "StoppedByOfficeHours" "true"]);
                     Respond "ClientError: tags refused" ])).
Proof.
  refine (aws_stop_dev_tags_what_it_stopped (scripted tag_write_rejected)
            0 start sample_snapshot [] 1 2 eq_refl _ eq_refl).
  discriminate.
Defined.

(** X15.  Neither scheduled action guards its [describe_instances] call:
    a client error raised by it escapes the skill after the greeting has
    been sent, and no other message or call follows. *)
Theorem scheduled_actions_describe_error_escapes {S : Type}
    (client : Client S) (rnd : nat) (w : world S) (e : string) (s1 : S) :
  describe_instances client None (client_state w) = (inl e, s1) ->
  aws_stop_dev client rnd w
  = (Raised e,
     World s1 (trace w ++ [ Respond (random_choice rnd byes);
                            Call (DescribeInstances None) ]))
  /\ aws_start_dev client rnd w
     = (Raised e,
        World s1 (trace w ++ [ Respond (random_choice rnd hellos);
                               Call (DescribeInstances None) ])).
Proof.
  intros Hdescribe.
  split; unfold aws_stop_dev, aws_start_dev, get_office_hours_instances;
    rewrite bind_respond, bind_assoc;
    rewrite (bind_provider_raises _ _ _ _ e s1) by exact Hdescribe;
    cbn [trace client_state]; now rewrite <- app_assoc.
Qed.

Lemma scheduled_actions_describe_error_witness :
  aws_stop_dev (scripted describe_rejected) 1 start
  = (Raised "ClientError: describe refused",
     World 1 [ Respond "Ok I'm off. Shutting down the dev stacks. See ya!";
               Call (DescribeInstances None) ]).
Proof.
  exact (proj1 (scheduled_actions_describe_error_escapes
                  (scripted describe_rejected) 1 start _ 1 eq_refl)).
Defined.

Lemma aws_start_dev_selected {S : Type} (client : Client S) (rnd : nat)
    (w : world S) (snapshot : list reservation) (s1 : S) :
  describe_instances client None (client_state w) = (inr snapshot, s1) ->
  aws_start_dev client rnd w
  = (let instances := office_hours_instances snapshot true in
     if Nat.ltb 0 (length instances) then
       respond ("Starting " +:+ str_nat (length instances)
                  +:+ " dev instances") ;;;
       try_except
         (provider (StartInstances instances)
                   (start_instances client instances) ;;;
          provider (DeleteTags instances ["StoppedByOfficeHours"])
                   (delete_tags client instances ["StoppedByOfficeHours"]))
         (fun e => respond e)
     else respond "I couldn't find any instances to start")
      (World s1 (trace w ++ [ Respond (random_choice rnd hellos);
                              Call (DescribeInstances None) ])).
Proof.
  intros Hdescribe. unfold aws_start_dev, get_office_hours_instances.
  rewrite bind_respond, bind_assoc.
  rewrite (bind_provider_ok _ _ _ _ snapshot s1) by exact Hdescribe.
  rewrite bind_ret. cbn [trace client_state]. now rewrite <- app_assoc.
Qed.

(** X16.  The scheduled start action, once it has its snapshot: with an
    empty selection it sends the none-found message and makes no other
    call; otherwise it starts the selected identifiers in one call and
    then removes the tag [StoppedByOfficeHours] from the same identifiers
    in one call.  A client error of either call is sent as a message and
    ends the skill normally; an error of the start call leaves the tags in
    place. *)
Theorem aws_start_dev_behaviour {S : Type} (client : Client S) (rnd : nat)
    (w : world S) (snapshot : list reservation) (s1 : S) :
  describe_instances client None (client_state w) = (inr snapshot, s1) ->
  let instances := office_hours_instances snapshot true in
  let untag := Call (DeleteTags instances ["StoppedByOfficeHours"]) in
  aws_start_dev client rnd w
  = match instances with
    | [] =>
        (Done tt,
         World s1 (trace w ++ [ Respond (random_choice rnd hellos);
                                Call (DescribeInstances None);
                                Respond "I couldn't find any instances to start" ]))
    | _ :: _ =>
        match start_instances client instances s1 with
        | (inl e, s2) =>
            (Done tt,
             World s2 (trace w ++ start_dev_prefix rnd instances ++ [Respond e]))
        | (inr _, s2) =>
            match delete_tags client instances ["StoppedByOfficeHours"] s2 with
            | (inl e, s3) =>
                (Done tt,
                 World s3 (trace w ++ start_dev_prefix rnd instances
                                   ++ [untag; Respond e]))
            | (inr _, s3) =>
                (Done tt,
                 World s3 (trace w ++ start_dev_prefix rnd instances ++ [untag]))
            end
        end
    end.
Proof.
  intros Hdescribe instances untag.
  rewrite (aws_start_dev_selected _ _ _ _ _ Hdescribe). cbv zeta.
  subst untag. fold instances. clearbody instances.
  destruct instances as [|i rest].
  { unfold respond, emit. simpl. now rewrite <- !app_assoc. }
  change (Nat.ltb 0 (length (i :: rest))) with true. cbv iota.
  rewrite bind_respond, try_except_run.
  unfold bind, provider. cbn [client_state trace].
  destruct (start_instances client (i :: rest) s1) as [[e|changes] s2].
  { unfold respond, emit, start_dev_prefix. simpl. now rewrite <- !app_assoc. }
  cbn [client_state trace].
  destruct (delete_tags client (i :: rest) ["StoppedByOfficeHours"] s2)
    as [[e|[]] s3];
    unfold respond, emit, start_dev_prefix; simpl; now rewrite <- !app_assoc.
Qed.

Lemma aws_start_dev_witness :
  aws_start_dev (scripted (quiet sample_snapshot (fun _ => []))) 0 start
  = (Done tt,
     World 3 (start_dev_prefix 0 ["i-5"]
                ++ [Call (DeleteTags ["i-5"] ["StoppedByOfficeHours"])])).
Proof.
  exact (aws_start_dev_behaviour (scripted (quiet sample_snapshot (fun _ => [])))
           0 start sample_snapshot 1 eq_refl).
Defined.

(** ** The query actions, continued *)

(** X17.  The list action asks the provider for the running instances
    only and sends a single message: the table, between code fences, with
    one row of five fields per instance of the reply, in the order of the
    reply, whose second field is the identifier of the instance. *)
Theorem aws_list_servers_one_row_per_instance {S : Type} (client : Client S)
    (get_string : list string -> list (list string) -> string) (now : Z)
    (w : world S) (snapshot : list reservation) (s1 : S) :
  describe_instances client (Some ("instance-state-name", ["running"]))
                     (client_state w) = (inr snapshot, s1) ->
  let rows := table_row now <$> all_instances snapshot in
  aws_list_servers client get_string now w
  = (Done tt,
     World s1
       (trace w ++
          [ Call (DescribeInstances (Some ("instance-state-name", ["running"])));
            Respond ("```" +:+ newline
                       +:+ get_string ["Name"; "ID"; "State"; "IP"; "Uptime"] rows
                       +:+ newline +:+ "```") ]))
  /\ Forall (fun row => length row = 5) rows
  /\ (fun row => nth 1 row EmptyString) <$> rows
     = InstanceId <$> all_instances snapshot.
Proof.
  intros Hdescribe rows. subst rows. split; [|split].
  - unfold aws_list_servers.
    rewrite (bind_provider_ok _ _ _ _ snapshot s1) by exact Hdescribe.
    unfold table_rows. rewrite table_rows_outer.
    unfold respond, emit. simpl. now rewrite <- !app_assoc.
  - apply Forall_fmap, Forall_forall. now intros i _.
  - rewrite <- list_fmap_compose. now apply list_fmap_ext.
Qed.

Lemma aws_list_servers_witness :
  aws_list_servers (scripted (quiet one_reservation_two_instances (fun _ => [])))
                   (fun _ rows => str_nat (length rows)) 0 start
  = (Done tt,
     World 1
       [ Call (DescribeInstances (Some ("instance-state-name", ["running"])));
         Respond ("```" +:+ newline +:+ "2" +:+ newline +:+ "```") ]).
Proof.
  exact (proj1 (aws_list_servers_one_row_per_instance
                  (scripted (quiet one_reservation_two_instances (fun _ => [])))
                  (fun _ rows => str_nat (length rows)) 0 start
                  one_reservation_two_instances 1 eq_refl)).
Defined.

(** X18.  The list and count actions have no error handler: a client
    error raised by [describe_instances] escapes the skill and no message
    is sent. *)
Theorem query_actions_describe_error_escapes {S : Type} (client : Client S)
    (get_string : list string -> list (list string) -> string) (now : Z)
    (status : string) (w : world S) (e e' : string) (s1 s1' : S) :
  describe_instances client (Some ("instance-state-name", ["running"]))
                     (client_state w) = (inl e, s1) ->
  describe_instances client (Some ("instance-state-name", [status]))
                     (client_state w) = (inl e', s1') ->
  aws_list_servers client get_string now w
  = (Raised e,
     World s1
       (trace w ++
          [ Call (DescribeInstances
                    (Some ("instance-state-name", ["running"]))) ]))
  /\ aws_count_servers client status w
     = (Raised e',
        World s1'
          (trace w ++
             [ Call (DescribeInstances
                       (Some ("instance-state-name", [status]))) ])).
Proof.
  intros Hlist Hcount. split.
  - unfold aws_list_servers.
    now rewrite (bind_provider_raises _ _ _ _ e s1) by exact Hlist.
  - unfold aws_count_servers.
    now rewrite (bind_provider_raises _ _ _ _ e' s1') by exact Hcount.
Qed.

Lemma query_actions_describe_error_witness :
  aws_count_servers (scripted describe_rejected) "stopped" start
  = (Raised "ClientError: describe refused",
     World 1 [ Call (DescribeInstances
                       (Some ("instance-state-name", ["stopped"]))) ]).
Proof.
  exact (proj2 (query_actions_describe_error_escapes
                  (scripted describe_rejected) (fun _ _ => EmptyString) 0
                  "stopped" start _ _ 1 1 eq_refl eq_refl)).
Defined.
